(** * ERLAB/data.py: the SES spectra loader

    A shallow embedding of [load_ses_spectra] (src/ERLAB/data.py) and the
    properties of it that the specification states.

    The loader is straight-line Python over four libraries.  What belongs to
    the program (the header scan, the angle lookup with its fallback, the
    skip logic, the two raised errors, the assembly of the result) is
    transcribed statement by statement.  What belongs to the libraries is
    modelled as follows.

    - The operating system ([os.path], [glob], [open]) is a record [OS] of
      functions; every theorem holds for an arbitrary one.
    - Python's [float] and the numeric conversion of a table field by
      pandas are fields of the class [Float64], over an abstract type of
      double values; every theorem holds for an arbitrary instance, so no
      property below depends on which spellings [float] accepts.
    - [pandas.read_csv] is a tokenizer over the lines of the file: rows are
      split at the separator, the first row fixes the width, shorter rows
      are padded with NaN, a longer row raises.  Quoting and dtype inference
      are outside the model.
    - [xarray.concat (join='outer')] aligns the indexed dimension [energy]
      by the sorted union of its labels and requires the dimension without
      index, [y_pixel], to have one size.
    - [numpy.linspace] is computed over exact rationals ([Qc]); rounding of
      doubles is outside the model. *)

From Stdlib Require Import Ascii String QArith Qcanon.
From stdpp Require Import base tactics option list strings numbers sorting.

Local Open Scope string_scope.
Local Open Scope list_scope.
Local Open Scope Z_scope.

(** ** Exceptions and printed output *)

Inductive exn : Type :=
| FileNotFoundError (msg : string)   (* raised at line 23 *)
| ValueError (msg : string)          (* raised at line 68 *)
| OSError (file_path : string)       (* open() on a path that cannot be read *)
| EmptyDataError                     (* pandas: no columns to parse *)
| ParserError (fields : nat)         (* pandas: a row of that many fields, wider than the first *)
| AlignmentError (dim : string).     (* xarray: the ValueError of align *)

Global Instance exn_eq_dec : EqDecision exn.
Proof. solve_decision. Defined.

(** A computation prints lines to standard output and then either raises or
    returns.  What was printed before an exception stays printed. *)
Record run (A : Type) : Type := Run {
  stdout : list string;
  outcome : exn + A;
}.
Global Arguments Run {A} _ _.
Global Arguments stdout {A} _.
Global Arguments outcome {A} _.

Definition raise {A} (e : exn) : run A := Run [] (inl e).
Definition print (s : string) : run unit := Run [s] (inr tt).

Global Instance run_ret : MRet run := λ A x, Run [] (inr x).
Global Instance run_bind : MBind run := λ A B f m,
  match outcome m with
  | inl e => Run (stdout m) (inl e)
  | inr x => Run (stdout m ++ stdout (f x)) (outcome (f x))
  end.

(** ** The libraries *)

(** [os.path.join], [os.path.basename], [glob.glob] and
    [open(p, 'r').readlines()] ([None]: the file cannot be opened). *)
Record OS : Type := {
  path_join : string → string → string;
  basename : string → string;
  glob : string → list string;
  readlines : string → option (list string);
}.

(** Double values.  [py_float s] is Python's [float(s)], [None] when it
    raises ValueError; [to_numeric] is the value pandas stores for a field;
    [f64_le] orders index labels. *)
Class Float64 : Type := {
  f64 : Type;
  f64_eq_dec :: EqDecision f64;
  f64_le : relation f64;
  f64_le_dec :: RelDecision f64_le;
  nan : f64;
  py_float : string → option f64;
  to_numeric : string → f64;
}.

(** *** Python built-ins *)

(** [sub in s] on strings. *)
Fixpoint contains (sub s : string) : bool :=
  String.prefix sub s ||
  match s with
  | EmptyString => false
  | String _ s' => contains sub s'
  end.

(** [l[k]] for a Python list and a possibly negative index; [None] is
    IndexError. *)
Definition getitem {A} (l : list A) (k : Z) : option A :=
  let n := Z.of_nat (length l) in
  if bool_decide (0 ≤ k < n) then l !! Z.to_nat k
  else if bool_decide (- n ≤ k < 0) then l !! Z.to_nat (n + k)
  else None.

(** [str.isspace] on the ASCII range: tab, line feed, vertical tab, form
    feed, carriage return, the four separators 0x1c-0x1f and space. *)
Definition is_whitespace (c : ascii) : bool :=
  let n := N_of_ascii c in
  ((9 <=? n) && (n <=? 13) || (28 <=? n) && (n <=? 32))%N.

Fixpoint lstrip (s : string) : string :=
  match s with
  | String c s' => if is_whitespace c then lstrip s' else s
  | EmptyString => EmptyString
  end.

Definition strip (s : string) : string :=
  String.rev (lstrip (String.rev (lstrip s))).

(** [sorted] on a list of strings. *)
Definition sorted (l : list string) : list string := merge_sort String.le l.

(** *** numpy.linspace *)

(** [np.linspace(start, stop, num)] with the default [endpoint=True]: the
    samples [i * step + start] for [i < num], the last one overwritten by
    [stop] when there are at least two. *)
Definition linspace (start stop : Qc) (num : nat) : list Qc :=
  let div := (num - 1)%nat in
  let delta := (stop - start)%Qc in
  let y := (λ i : nat, Qc_of_Z (Z.of_nat i)) <$> seq 0 num in
  let y :=
    if bool_decide (0 < div)%nat
    then (λ v, v * (delta / Qc_of_Z (Z.of_nat div)))%Qc <$> y
    else (λ v, v * delta)%Qc <$> y in
  let y := (λ v, v + start)%Qc <$> y in
  if bool_decide (1 < num)%nat then <[(num - 1)%nat := stop]> y else y.

Section loader.
Context `{Float64}.

(** *** pandas.read_csv *)

(** A table of [width] columns. *)
Record DataFrame : Type := {
  width : nat;
  rows : list (list f64);
}.

(** [df.iloc[:, 0]] and [df.iloc[:, 1:]]. *)
Definition iloc_first (df : DataFrame) : list f64 :=
  (λ r, default nan (head r)) <$> rows df.
Definition iloc_rest (df : DataFrame) : list (list f64) :=
  tail <$> rows df.

(** A line without its terminator. *)
Fixpoint chomp (s : string) : string :=
  match s with
  | EmptyString => EmptyString
  | String c EmptyString => if bool_decide (c = "010"%char) then EmptyString else s
  | String c s' => String c (chomp s')
  end.

(** The fields of a line: the pieces between separators. *)
Fixpoint split (sep : ascii) (s : string) : list string :=
  match s with
  | EmptyString => [EmptyString]
  | String c s' =>
      if bool_decide (c = sep) then EmptyString :: split sep s'
      else match split sep s' with
           | f :: fs => String c f :: fs
           | [] => [String c EmptyString]
           end
  end.

(** A line the tokenizer skips ([skip_blank_lines=True]): nothing but
    spaces before the terminator. *)
Fixpoint only_spaces (s : string) : bool :=
  match s with
  | EmptyString => true
  | String c s' => bool_decide (c = " "%char) && only_spaces s'
  end.
Definition blank_line (line : string) : bool := only_spaces (chomp line).

(** One row of the table: a row wider than the table raises, a narrower
    one is filled with NaN. *)
Definition parse_row (width : nat) (fields : list string) : run (list f64) :=
  if bool_decide (width < length fields)%nat then raise (ParserError (length fields))
  else mret ((to_numeric <$> fields) ++ replicate (width - length fields) nan).

Fixpoint parse_rows (width : nat) (body : list (list string)) : run (list (list f64)) :=
  match body with
  | [] => mret []
  | fields :: body' =>
      r ← parse_row width fields;
      rs ← parse_rows width body';
      mret (r :: rs)
  end.

(** [pd.read_csv(file_path, sep=sep, header=None, skiprows=skiprows)]: the
    file is read again, its first [skiprows] lines are dropped and blank
    lines are skipped.  Nothing left is EmptyDataError ("No columns to parse
    from file"); a row with more fields than the first is ParserError
    ("Expected k fields in line n, saw m"). *)
Definition read_csv (os : OS) (file_path : string) (sep : ascii) (skiprows : nat)
  : run DataFrame :=
  match readlines os file_path with
  | None => raise (OSError file_path)
  | Some lines =>
      let body := (λ l, split sep (chomp l)) <$>
                  filter (λ l, blank_line l = false) (drop skiprows lines) in
      match body with
      | [] => raise EmptyDataError
      | first :: _ =>
          rs ← parse_rows (length first) body;
          mret {| width := length first; rows := rs |}
      end
  end.

(** *** xarray *)

(** A labelled array of three dimensions ([dim0], energy, y_pixel).  The
    first two carry an index coordinate, y_pixel does not; [ky] is the
    coordinate attached to y_pixel at the end. *)
Record DataArray : Type := {
  dim0 : string;
  coord0 : list f64;
  energy : list f64;
  y_pixel : nat;
  values : list (list (list f64));
  ky : option (list Qc);
}.

(** [xr.DataArray(data=df.iloc[:, 1:], dims=('energy', 'y_pixel'),
    coords={'energy': df.iloc[:, 0], 'angle': angle_value})
    .expand_dims('angle')]. *)
Definition DataArray_of (df : DataFrame) (angle_value : f64) : DataArray :=
  {| dim0 := "angle";
     coord0 := [angle_value];
     energy := iloc_first df;
     y_pixel := (width df - 1)%nat;
     values := [iloc_rest df];
     ky := None |}.

Definition all_equal {A} `{EqDecision A} (l : list A) : bool :=
  match l with
  | [] => true
  | x :: l' => forallb (λ y, bool_decide (y = x)) l'
  end.

(** One plane of values moved onto the labels [idx]: the row stored under a
    label when the old index has it, a row of NaN otherwise. *)
Definition reindex_plane (idx old : list f64) (n_pixel : nat)
    (plane : list (list f64)) : list (list f64) :=
  (λ e, match list_find (λ e', e' = e) old with
        | Some (j, _) => default (replicate n_pixel nan) (plane !! j)
        | None => replicate n_pixel nan
        end) <$> idx.

Definition reindex (idx : list f64) (d : DataArray) : list (list (list f64)) :=
  reindex_plane idx (energy d) (y_pixel d) <$> values d.

(** The outer join of the energy indexes: the first one when all are equal,
    their sorted union otherwise. *)
Definition joined_index (datasets : list DataArray) : list f64 :=
  if all_equal (energy <$> datasets) then default [] (head (energy <$> datasets))
  else merge_sort f64_le (remove_dups (concat (energy <$> datasets))).

(** [xr.concat(datasets, dim=dim0, join='outer')] for arrays that have
    [dim0] as their first dimension.  The arrays are aligned first, [dim0]
    excluded.  [join] says how to combine differing indexes, and y_pixel has
    none: as the documentation of [xarray.align] has it, a ValueError is
    raised "if any dimensions without labels on the arguments have different
    sizes".  The energy indexes are left alone when they are all equal;
    otherwise every array is reindexed onto their union, which xarray
    refuses for an index with duplicate values ("cannot reindex or align
    along dimension 'energy' because the (pandas) index has duplicate
    values").  The missing entries are filled with NaN. *)
Definition concat_outer (datasets : list DataArray) : run DataArray :=
  match datasets with
  | [] => raise (ValueError "must supply at least one object to concatenate")
  | d0 :: _ =>
      if negb (all_equal (y_pixel <$> datasets)) then raise (AlignmentError "y_pixel")
      else if all_equal (energy <$> datasets) then
        mret {| dim0 := dim0 d0;
                coord0 := concat (coord0 <$> datasets);
                energy := energy d0;
                y_pixel := y_pixel d0;
                values := concat (values <$> datasets);
                ky := None |}
      else if forallb (λ d, bool_decide (NoDup (energy d))) datasets then
        mret {| dim0 := dim0 d0;
                coord0 := concat (coord0 <$> datasets);
                energy := joined_index datasets;
                y_pixel := y_pixel d0;
                values := concat (reindex (joined_index datasets) <$> datasets);
                ky := None |}
      else raise (AlignmentError "energy")
  end.

(** [d.rename({old: new})] on the first dimension. *)
Definition rename (d : DataArray) (old new : string) : DataArray :=
  {| dim0 := if bool_decide (dim0 d = old) then new else dim0 d;
     coord0 := coord0 d; energy := energy d; y_pixel := y_pixel d;
     values := values d; ky := ky d |}.

(** [d.assign_coords(ky=('y_pixel', ky_values))]: the coordinate must have
    the size of the dimension. *)
Definition assign_coords_ky (d : DataArray) (ky_values : list Qc) : run DataArray :=
  if bool_decide (length ky_values = y_pixel d) then
    mret {| dim0 := dim0 d; coord0 := coord0 d; energy := energy d;
            y_pixel := y_pixel d; values := values d; ky := Some ky_values |}
  else raise (ValueError "conflicting sizes for dimension 'y_pixel'").

(** ** The loader *)

(** The header marker searched for at line 35. *)
Definition marker : string := "[Data]".

(** [float(lines[k].strip())] inside [try ... except (ValueError,
    IndexError)]: [None] when the lookup raises IndexError or the conversion
    raises ValueError. *)
Definition try_float (lines : list string) (k : Z) : option f64 :=
  line ← getitem lines k; py_float (strip line).

(** Lines 33-49, the loop over [enumerate(lines)]: [todo] holds the lines
    not yet visited and [i] is the index of the first of them.  The result
    is the pair [(data_start_line, angle_value)] as the loop leaves it. *)
Fixpoint scan_header (os : OS) (file_path : string) (lines : list string)
    (i : nat) (todo : list string) : run (option nat * option f64) :=
  match todo with
  | [] => mret (None, None)
  | line :: todo' =>
      if contains marker line then
        let data_start_line := (i + 1)%nat in
        match try_float lines (Z.of_nat i - 3) with
        | Some angle_value => mret (Some data_start_line, Some angle_value)
        | None =>
            match try_float lines (Z.of_nat i - 4) with
            | Some angle_value => mret (Some data_start_line, Some angle_value)
            | None =>
                _ ← print ("Warning: Could not parse angle in "
                           +:+ basename os file_path +:+ ". Skipping.");
                mret (Some data_start_line, None)
            end
        end
      else scan_header os file_path lines (S i) todo'
  end.

(** Lines 28-65, the body of the loop over [file_list]: the array of one
    file, or [None] where the body runs into [continue]. *)
Definition load_file (os : OS) (file_path : string) : run (option DataArray) :=
  match readlines os file_path with
  | None => raise (OSError file_path)
  | Some lines =>
      '(data_start_line, angle_value) ← scan_header os file_path lines 0 lines;
      match data_start_line, angle_value with
      | Some data_start_line, Some angle_value =>
          df ← read_csv os file_path "009"%char data_start_line;
          mret (Some (DataArray_of df angle_value))
      | _, _ => mret None
      end
  end.

(** Lines 27-65, the loop itself, [datasets] being the list built so far. *)
Fixpoint load_files (os : OS) (file_list : list string)
    (datasets : list DataArray) : run (list DataArray) :=
  match file_list with
  | [] => mret datasets
  | file_path :: file_list' =>
      d ← load_file os file_path;
      load_files os file_list'
        match d with
        | Some data_array => datasets ++ [data_array]
        | None => datasets
        end
  end.

Definition default_file_pattern : string := "S313_MgB2_*.txt".

(** Lines 67-80: what is made of the arrays once the loop is over. *)
Definition combine (datasets : list DataArray) : run DataArray :=
  match datasets with
  | [] => raise (ValueError "No valid datasets were created. Check file format.")
  | _ :: _ =>
      combined_data ← concat_outer datasets;
      let combined_data := rename combined_data "angle" "kx" in
      let first_pixel_momentum := (- 1)%Qc in
      let last_pixel_momentum := 1%Qc in
      let ky_values :=
        linspace first_pixel_momentum last_pixel_momentum (y_pixel combined_data) in
      assign_coords_ky combined_data ky_values
  end.

Definition load_ses_spectra (os : OS) (directory_path file_pattern : string)
  : run DataArray :=
  let file_list := sorted (glob os (path_join os directory_path file_pattern)) in
  match file_list with
  | [] =>
      raise (FileNotFoundError ("No files found in the directory: "
                                +:+ directory_path +:+ " with pattern "
                                +:+ file_pattern))
  | _ :: _ =>
      datasets ← load_files os file_list [];
      combine datasets
  end.

End loader.

(** ** The script (lines 83-92) *)

Section script.
Context `{Float64}.

(** [repr] of the array, as [print(arpes_data)] writes it, and [str(e)]
    for the exceptions that pandas and xarray raise. *)
Variable repr : DataArray → string.
Variable library_message : exn → string.

(** [str(e)]: the message, for the two errors the loader raises itself. *)
Definition str_exn (e : exn) : string :=
  match e with
  | FileNotFoundError msg | ValueError msg => msg
  | _ => library_message e
  end.

(** [isinstance(e, (FileNotFoundError, ValueError))].  The errors of pandas
    and of xarray's alignment are ValueErrors.  [OSError] is the error of
    [open] on a path that [glob] has listed, so the file exists and the
    error is not the subclass FileNotFoundError. *)
Definition is_caught (e : exn) : bool :=
  match e with
  | FileNotFoundError _ | ValueError _
  | EmptyDataError | ParserError _ | AlignmentError _ => true
  | OSError _ => false
  end.

(** [try: body except classes as e: handler(e)]. *)
Definition try_except {A} (body : run A) (classes : exn → bool)
    (handler : exn → run A) : run A :=
  match outcome body with
  | inr _ => body
  | inl e =>
      if classes e
      then Run (stdout body ++ stdout (handler e)) (outcome (handler e))
      else body
  end.

Definition data_folder : string :=
  "C:/Users/mdram/SolidStatePhysics1/dataverse_files".

(** The block under [if __name__ == '__main__']. *)
Definition main (os : OS) : run unit :=
  try_except
    (arpes_data ← load_ses_spectra os data_folder default_file_pattern;
     _ ← print "Successfully created the combined ARPES dataset:";
     print (repr arpes_data))
    is_caught
    (λ e, print ("Error: " +:+ str_exn e)).

End script.

(** ** Vocabulary of the specification *)

Section vocabulary.
Context `{Float64}.

(** The index of the first line that contains the marker. *)
Definition first_marker (lines : list string) : option nat :=
  fst <$> list_find (λ line, Is_true (contains marker line)) lines.

(** The angle the header scan assigns when the marker is on line [i]:
    [lines[i - 3]], then [lines[i - 4]]. *)
Definition angle_lookup (lines : list string) (i : nat) : option f64 :=
  match try_float lines (Z.of_nat i - 3) with
  | Some angle_value => Some angle_value
  | None => try_float lines (Z.of_nat i - 4)
  end.

(** The line printed for a file whose angle cannot be parsed. *)
Definition warning (os : OS) (file_path : string) : string :=
  "Warning: Could not parse angle in " +:+ basename os file_path +:+ ". Skipping.".

(** The files the loader visits, in the order it visits them. *)
Definition file_list (os : OS) (directory_path file_pattern : string) : list string :=
  sorted (glob os (path_join os directory_path file_pattern)).

(** The rows of the table of a file whose marker is on line [i]: the
    fields, split at tabs, of the lines after the marker line that are not
    blank. *)
Definition body_rows (lines : list string) (i : nat) : list (list string) :=
  (λ l, split "009"%char (chomp l)) <$>
  filter (λ l, blank_line l = false) (drop (i + 1) lines).

(** The width of a table is that of its first row. *)
Definition table_width (body : list (list string)) : nat :=
  length (default [] (head body)).

(** A table can be read when it has a row and none is wider than the first. *)
Definition table_ok (body : list (list string)) : Prop :=
  body ≠ [] ∧ Forall (λ fields, (length fields ≤ table_width body)%nat) body.

(** The energy of a row, its first field, and its intensities, the other
    fields, filled with NaN up to the width of the table. *)
Definition row_energy (fields : list string) : f64 :=
  to_numeric (default EmptyString (head fields)).
Definition row_intensities (w : nat) (fields : list string) : list f64 :=
  (to_numeric <$> tail fields) ++ replicate (w - length fields) nan.

(** The array of a file with marker on line [i] and angle [angle_value]. *)
Definition slice (lines : list string) (i : nat) (angle_value : f64) : DataArray :=
  let body := body_rows lines i in
  {| dim0 := "angle";
     coord0 := [angle_value];
     energy := row_energy <$> body;
     y_pixel := (table_width body - 1)%nat;
     values := [row_intensities (table_width body) <$> body];
     ky := None |}.

(** A well-formed file: a marker line, an angle in the header and a table
    after the marker. *)
Definition well_formed (lines : list string) : Prop :=
  ∃ i angle_value,
    first_marker lines = Some i ∧
    angle_lookup lines i = Some angle_value ∧
    table_ok (body_rows lines i).

(** The table, the angle, the pixel-column count and the energy column of a
    file, read off its lines. *)
Definition table_of (lines : list string) : list (list string) :=
  match first_marker lines with
  | Some i => body_rows lines i
  | None => []
  end.
Definition angle_of (lines : list string) : option f64 :=
  first_marker lines ≫= angle_lookup lines.
Definition pixel_columns (lines : list string) : nat :=
  (table_width (table_of lines) - 1)%nat.
Definition energy_column (lines : list string) : list f64 :=
  row_energy <$> table_of lines.

(** The lines of a file ([] when it cannot be read). *)
Definition contents (os : OS) (file_path : string) : list string :=
  default [] (readlines os file_path).

(** The plane of values of the array of one file. *)
Definition plane (d : DataArray) : list (list f64) := default [] (head (values d)).

(** Every row of the array has [y_pixel] entries. *)
Definition pixel_shaped (d : DataArray) : Prop :=
  Forall (Forall (λ row : list f64, length row = y_pixel d)) (values d).

(** The row of slice [k] stored at position [pos] of the energy axis. *)
Definition row_at (d : DataArray) (k pos : nat) : option (list f64) :=
  values d !! k ≫= λ pl, pl !! pos.

(** What [combine] makes of the concatenated array. *)
Definition with_ky (c : DataArray) : DataArray :=
  {| dim0 := if bool_decide (dim0 c = "angle") then "kx" else dim0 c;
     coord0 := coord0 c; energy := energy c; y_pixel := y_pixel c;
     values := values c;
     ky := Some (linspace (- 1)%Qc 1%Qc (y_pixel c)) |}.

(** The array the loop adds for a file, if any. *)
Definition file_slice (os : OS) (file_path : string) : option DataArray :=
  lines ← readlines os file_path;
  i ← first_marker lines;
  angle_value ← angle_lookup lines i;
  Some (slice lines i angle_value).

(** An array is the slice of some file with a readable table. *)
Definition sliced (d : DataArray) : Prop :=
  ∃ lines i angle_value,
    table_ok (body_rows lines i) ∧ d = slice lines i angle_value.

(** The warning the loop prints for a file, if any: it is printed for a
    file that has a marker line and no parseable angle. *)
Definition warning_of (os : OS) (file_path : string) : option string :=
  lines ← readlines os file_path;
  i ← first_marker lines;
  match angle_lookup lines i with
  | Some _ => None
  | None => Some (warning os file_path)
  end.

(** The intensities of the table of a file, row by row. *)
Definition intensities (lines : list string) : list (list f64) :=
  row_intensities (table_width (table_of lines)) <$> table_of lines.

(** The same operating system with another [glob]. *)
Definition with_glob (os : OS) (g : string → list string) : OS :=
  {| path_join := path_join os; basename := basename os;
     glob := g; readlines := readlines os |}.

(** The line [k] lines before line [i] of a file, where the file has one. *)
Definition line_above (lines : list string) (i k : nat) : option string :=
  if bool_decide (k ≤ i)%nat then lines !! (i - k)%nat else None.

End vocabulary.

(** ** A runtime to run the loader on

    Doubles are the integers together with NaN, written in decimal; the
    file system is a list of paths with their lines; a pattern may use the
    wildcard [*]. *)
Module Sample.

Definition digit (c : ascii) : option Z :=
  let n := Z.of_N (N_of_ascii c) in
  if bool_decide (48 ≤ n ≤ 57) then Some (n - 48) else None.

Fixpoint digits (acc : Z) (s : string) : option Z :=
  match s with
  | EmptyString => Some acc
  | String c s' => d ← digit c; digits (10 * acc + d) s'
  end.

Definition integer (s : string) : option Z :=
  match s with
  | EmptyString => None
  | String c s' =>
      if bool_decide (c = "-"%char)
      then match s' with
           | EmptyString => None
           | String _ _ => Z.opp <$> digits 0 s'
           end
      else digits 0 s
  end.

(** NaN, the value [None], is ordered after every number. *)
Definition le (x y : option Z) : Prop :=
  match x, y with
  | Some a, Some b => a ≤ b
  | _, None => True
  | None, Some _ => False
  end.

Global Instance le_dec : RelDecision le.
Proof. intros [a|] [b|]; simpl; apply _. Defined.

Definition float64 : Float64 := {|
  f64 := option Z;
  f64_le := le;
  nan := None;
  py_float s := Some <$> integer s;
  to_numeric s := integer s;
|}.

Fixpoint glob_match (pat s : string) : bool :=
  match pat with
  | EmptyString => bool_decide (s = EmptyString)
  | String p pat' =>
      if bool_decide (p = "*"%char) then
        (fix star (s : string) : bool :=
           glob_match pat' s ||
           match s with
           | EmptyString => false
           | String c s' => negb (bool_decide (c = "/"%char)) && star s'
           end) s
      else match s with
           | String c s' => bool_decide (c = p) && glob_match pat' s'
           | EmptyString => false
           end
  end.

Fixpoint after_last_slash (cur s : string) : string :=
  match s with
  | EmptyString => String.rev cur
  | String c s' =>
      if bool_decide (c = "/"%char) then after_last_slash EmptyString s'
      else after_last_slash (String c cur) s'
  end.

Definition mem_os (files : list (string * list string)) : OS := {|
  path_join d p := d +:+ "/" +:+ p;
  basename p := after_last_slash EmptyString p;
  glob pat := filter (λ p, Is_true (glob_match pat p)) files.*1;
  readlines p := snd <$> list_find (λ f, f.1 = p) files ≫= λ f, Some f.2;
|}.

Definition nl : string := String "010"%char EmptyString.
Definition tab : string := String "009"%char EmptyString.
Definition line (s : string) : string := s +:+ nl.
Definition row (fields : list string) : string := String.concat tab fields +:+ nl.

(** A file with the angle three lines above the marker and [body] below. *)
Definition spectrum (angle : string) (body : list (list string)) : list string :=
  [line "[Info]"; line angle; line "Region Name=MgB2"; line "Lens Mode=Angular";
   line "[Data]"] ++ (row <$> body).

(** Two spectra of two pixel columns, one of three, one whose header has no
    number where the angle is expected, and a file without marker. *)
Definition spectrum_12 : list string :=
  spectrum "12" [["1"; "10"; "20"]; ["2"; "30"; "40"]].
Definition spectrum_15 : list string :=
  spectrum "15" [["2"; "11"; "21"]; ["3"; "31"; "41"]].
Definition spectrum_wide : list string :=
  spectrum "18" [["1"; "12"; "22"; "32"]; ["2"; "13"; "23"; "33"]].
Definition spectrum_no_angle : list string :=
  spectrum "n/a" [["1"; "10"; "20"]].
Definition notes : list string :=
  [line "[Info]"; line "12"; row ["1"; "10"; "20"]].

(** A header of two lines only, and a last row that is a lone number. *)
Definition short_header : list string :=
  [line "Region Name=MgB2"; line "Lens Mode=Angular"; line "[Data]";
   row ["1"; "10"]; row ["2"]].

(** A file that is the marker line and nothing else. *)
Definition marker_only : list string := [line "[Data]"].

Definition dir_pair : OS :=
  mem_os [("run/S313_MgB2_2.txt", spectrum_15);
          ("run/S313_MgB2_1.txt", spectrum_12);
          ("run/readme.txt", notes)].
Definition dir_mixed : OS :=
  mem_os [("run/S313_MgB2_3.txt", spectrum_15);
          ("run/S313_MgB2_2.txt", spectrum_no_angle);
          ("run/S313_MgB2_1.txt", spectrum_12)].
Definition dir_unusable : OS :=
  mem_os [("run/S313_MgB2_2.txt", spectrum_no_angle);
          ("run/S313_MgB2_1.txt", notes)].
Definition dir_unmarked : OS :=
  mem_os [("run/S313_MgB2_1.txt", notes)].
Definition dir_ragged : OS :=
  mem_os [("run/S313_MgB2_2.txt", spectrum_wide);
          ("run/S313_MgB2_1.txt", spectrum_12)].
Definition dir_short : OS :=
  mem_os [("run/S313_MgB2_1.txt", short_header)].
Definition dir_marker_only : OS :=
  mem_os [("run/S313_MgB2_1.txt", marker_only)].

(** A header without any row after the marker, and a table whose second
    row is wider than its first. *)
Definition spectrum_empty : list string := spectrum "12" [].
Definition spectrum_ragged : list string :=
  spectrum "12" [["1"; "10"]; ["2"; "20"; "30"]].

(** Two spectra with the same energy column, listed in both orders. *)
Definition spectrum_21 : list string :=
  spectrum "21" [["1"; "14"; "24"]; ["2"; "34"; "44"]].
Definition dir_scan : OS :=
  mem_os [("run/S313_MgB2_1.txt", spectrum_12);
          ("run/S313_MgB2_2.txt", spectrum_21)].
Definition dir_empty_table : OS :=
  mem_os [("run/S313_MgB2_3.txt", spectrum_15);
          ("run/S313_MgB2_2.txt", spectrum_empty);
          ("run/S313_MgB2_1.txt", spectrum_no_angle)].
Definition dir_ragged_table : OS :=
  mem_os [("run/S313_MgB2_1.txt", spectrum_ragged)].

(** A spectrum of one pixel column, in a directory with [short_header]. *)
Definition spectrum_narrow : list string :=
  spectrum "12" [["1"; "10"]; ["2"; "30"]].
Definition dir_short_pair : OS :=
  mem_os [("run/S313_MgB2_1.txt", spectrum_narrow);
          ("run/S313_MgB2_2.txt", short_header)].

(** A file in which the marker occurs twice, first inside a longer line. *)
Definition twice_marked : list string :=
  [line "[Info]"; line "12"; line "Region Name=MgB2"; line "Lens Mode=Angular";
   line "Spectrum [Data] 1"; row ["1"; "10"]; line "[Data]"; row ["2"; "30"]].
Definition dir_twice_marked : OS :=
  mem_os [("run/S313_MgB2_1.txt", twice_marked)].

(** The folder of the script with one spectrum in it, and a way to print
    an array and a library error. *)
Definition dir_dataverse : OS :=
  mem_os [(data_folder +:+ "/S313_MgB2_1.txt", spectrum_12)].
Definition repr_sizes (arr : @DataArray float64) : string :=
  "<xarray.DataArray (kx, energy, y_pixel)>".
Definition class_name (e : exn) : string :=
  match e with
  | EmptyDataError => "No columns to parse from file"
  | ParserError _ => "Error tokenizing data"
  | AlignmentError _ => "cannot reindex or align"
  | OSError _ => "cannot open"
  | FileNotFoundError msg | ValueError msg => msg
  end.

End Sample.

(** ** The monad laws used below *)

Lemma run_eta {A} (m : run A) : Run (stdout m) (outcome m) = m.
Proof. by destruct m. Qed.

Lemma bind_mret {A B} (x : A) (f : A → run B) : (mret x ≫= f) = f x.
Proof. unfold mbind, run_bind, mret, run_ret; simpl. apply run_eta. Qed.

Lemma bind_inr {A B} out (x : A) (f : A → run B) :
  (Run out (inr x) ≫= f) = Run (out ++ stdout (f x)) (outcome (f x)).
Proof. done. Qed.

Lemma bind_inl {A B} out e (f : A → run B) :
  (Run out (inl e) ≫= f) = Run out (inl e).
Proof. done. Qed.

Lemma bind_assoc {A B C} (m : run A) (f : A → run B) (g : B → run C) :
  ((m ≫= f) ≫= g) = (m ≫= λ x, f x ≫= g).
Proof.
  destruct m as [out [e|x]]; [done|].
  unfold mbind, run_bind; simpl.
  destruct (f x) as [out' [e|y]]; simpl; [done|].
  by rewrite app_assoc.
Qed.

Lemma bind_ext {A B} (m : run A) (f g : A → run B) :
  (∀ x, f x = g x) → (m ≫= f) = (m ≫= g).
Proof.
  intros Hfg. destruct m as [out [e|x]]; [done|].
  unfold mbind, run_bind; simpl. by rewrite Hfg.
Qed.

Lemma bind_outcome_inr {A B} (m : run A) (f : A → run B) y :
  outcome (m ≫= f) = inr y →
  ∃ x, outcome m = inr x ∧ outcome (f x) = inr y.
Proof.
  destruct m as [out [e|x]]; [done|]. unfold mbind, run_bind; simpl. eauto.
Qed.

Section header.
Context `{Float64}.

(** ** The header scan *)

Lemma scan_header_no_marker os file_path lines i todo :
  first_marker todo = None →
  scan_header os file_path lines i todo = mret (None, None).
Proof.
  unfold first_marker. revert i.
  induction todo as [|line todo IH]; intros i Hnone; [done|].
  simpl in *. destruct (decide (Is_true (contains marker line))) as [Hc|Hc];
    [done|].
  apply Is_true_false in Hc. rewrite Hc. apply IH.
  by destruct (list_find _ todo).
Qed.

Lemma scan_header_marker os file_path lines i todo j :
  first_marker todo = Some j →
  scan_header os file_path lines i todo =
    Run (match angle_lookup lines (i + j) with
         | Some _ => []
         | None => [warning os file_path]
         end)
        (inr (Some (i + j + 1)%nat, angle_lookup lines (i + j))).
Proof.
  unfold first_marker. revert i j.
  induction todo as [|line todo IH]; intros i j Hj; [done|].
  simpl in *. destruct (decide (Is_true (contains marker line))) as [Hc|Hc].
  - apply Is_true_true in Hc. rewrite Hc. simplify_eq/=.
    rewrite Nat.add_0_r. unfold angle_lookup.
    destruct (try_float lines (Z.of_nat i - 3)); [done|].
    destruct (try_float lines (Z.of_nat i - 4)); done.
  - apply Is_true_false in Hc. rewrite Hc.
    destruct (list_find _ todo) as [[k l]|] eqn:Hfind; simplify_eq/=.
    rewrite (IH (S i) k) by done.
    by replace (S i + k)%nat with (i + S k)%nat by lia.
Qed.

(** What the loop body does with one readable file, by the three ways the
    header scan can end. *)
Lemma load_file_no_marker os file_path lines :
  readlines os file_path = Some lines →
  first_marker lines = None →
  load_file os file_path = mret None.
Proof.
  intros Hread Hnone. unfold load_file. rewrite Hread.
  by rewrite scan_header_no_marker, bind_mret.
Qed.

Lemma load_file_no_angle os file_path lines i :
  readlines os file_path = Some lines →
  first_marker lines = Some i →
  angle_lookup lines i = None →
  load_file os file_path = Run [warning os file_path] (inr None).
Proof.
  intros Hread Hi Hnone. unfold load_file. rewrite Hread.
  rewrite (scan_header_marker _ _ _ 0 _ i) by done. simpl.
  by rewrite Hnone.
Qed.

Lemma load_file_angle os file_path lines i angle_value :
  readlines os file_path = Some lines →
  first_marker lines = Some i →
  angle_lookup lines i = Some angle_value →
  load_file os file_path =
    (df ← read_csv os file_path "009"%char (i + 1);
     mret (Some (DataArray_of df angle_value))).
Proof.
  intros Hread Hi Ha. unfold load_file. rewrite Hread.
  rewrite (scan_header_marker _ _ _ 0 _ i) by done. simpl.
  rewrite Ha. apply (bind_mret (Some (i + 1)%nat, Some angle_value)).
Qed.

End header.

Section loop.
Context `{Float64}.

(** ** The loop over the files *)

Lemma load_files_app os files1 files2 datasets :
  load_files os (files1 ++ files2) datasets =
    (datasets' ← load_files os files1 datasets; load_files os files2 datasets').
Proof.
  revert datasets.
  induction files1 as [|p files1 IH]; intros datasets; cbn [load_files app].
  - symmetry. apply bind_mret.
  - rewrite bind_assoc. apply bind_ext. intros d. apply IH.
Qed.

(** The loop only ever appends to [datasets]. *)
Lemma load_files_acc os files datasets :
  load_files os files datasets =
    (new ← load_files os files []; mret (datasets ++ new)).
Proof.
  revert datasets.
  induction files as [|p files IH]; intros datasets; cbn [load_files].
  - rewrite bind_mret. by rewrite app_nil_r.
  - rewrite bind_assoc. apply bind_ext. intros d.
    rewrite IH. rewrite (IH (match d with Some _ => _ | None => [] end)).
    rewrite bind_assoc. apply bind_ext. intros new. rewrite bind_mret.
    destruct d; simpl; by rewrite <-?app_assoc.
Qed.

End loop.

Section errors.
Context `{Float64}.

(** ** The two raised errors and the skipped files *)

Lemma sorted_nil l : sorted l = [] ↔ l = [].
Proof.
  unfold sorted. split; [|by intros ->].
  intros Hs. apply Permutation_nil_r. by rewrite <-(merge_sort_Permutation String.le l), Hs.
Qed.

Lemma Forall_file_list os directory_path file_pattern (P : string → Prop) :
  Forall P (glob os (path_join os directory_path file_pattern)) ↔
  Forall P (file_list os directory_path file_pattern).
Proof. unfold file_list, sorted. by rewrite merge_sort_Permutation. Qed.

Lemma length_file_list os directory_path file_pattern :
  length (file_list os directory_path file_pattern) =
  length (glob os (path_join os directory_path file_pattern)).
Proof. unfold file_list, sorted. by rewrite merge_sort_Permutation. Qed.

Lemma load_ses_spectra_found os directory_path file_pattern :
  glob os (path_join os directory_path file_pattern) ≠ [] →
  load_ses_spectra os directory_path file_pattern =
    (datasets ← load_files os (file_list os directory_path file_pattern) [];
     combine datasets).
Proof.
  intros Hglob. unfold load_ses_spectra, file_list.
  destruct (sorted _) eqn:Hs; [|done]. exfalso. by apply Hglob, sorted_nil.
Qed.

Lemma load_files_silent os files datasets :
  Forall (λ file_path, load_file os file_path = mret None) files →
  load_files os files datasets = mret datasets.
Proof.
  intros Hall. revert datasets.
  induction Hall as [|p files Hp _ IH]; intros datasets; cbn [load_files]; [done|].
  rewrite Hp, bind_mret. apply IH.
Qed.

Lemma load_files_skipped os files datasets :
  Forall (λ file_path, outcome (load_file os file_path) = inr None) files →
  outcome (load_files os files datasets) = inr datasets.
Proof.
  intros Hall. revert datasets.
  induction Hall as [|p files Hp _ IH]; intros datasets; cbn [load_files]; [done|].
  destruct (load_file os p) as [out [e|d]]; simplify_eq/=.
  unfold mbind, run_bind; simpl. apply IH.
Qed.

Lemma load_ses_spectra_no_files os directory_path file_pattern :
  glob os (path_join os directory_path file_pattern) = [] →
  outcome (load_ses_spectra os directory_path file_pattern) =
    inl (FileNotFoundError ("No files found in the directory: "
                            +:+ directory_path +:+ " with pattern "
                            +:+ file_pattern)).
Proof. intros Hglob. unfold load_ses_spectra. by rewrite Hglob. Qed.

(** C4. For every directory path and pattern for which the glob match is
    empty, [load_ses_spectra] raises the missing-files error
    (FileNotFoundError) and returns no array. *)
Theorem empty_glob_raises_FileNotFoundError os directory_path file_pattern :
  glob os (path_join os directory_path file_pattern) = [] →
  load_ses_spectra os directory_path file_pattern =
    raise (FileNotFoundError ("No files found in the directory: "
                              +:+ directory_path +:+ " with pattern "
                              +:+ file_pattern))
  ∧ ∀ arr, outcome (load_ses_spectra os directory_path file_pattern) ≠ inr arr.
Proof.
  intros Hglob. unfold load_ses_spectra. rewrite Hglob. by split.
Qed.

(** C5. If the glob matches at least one file but every matched file fails
    to yield a dataset (it has no marker line, or its angle cannot be
    parsed), [load_ses_spectra] raises the no-valid-data error (ValueError)
    rather than returning an empty array. *)
Theorem no_dataset_raises_ValueError os directory_path file_pattern :
  glob os (path_join os directory_path file_pattern) ≠ [] →
  Forall (λ file_path, ∃ lines,
            readlines os file_path = Some lines ∧
            (first_marker lines = None ∨
             ∃ i, first_marker lines = Some i ∧ angle_lookup lines i = None))
         (glob os (path_join os directory_path file_pattern)) →
  outcome (load_ses_spectra os directory_path file_pattern) =
    inl (ValueError "No valid datasets were created. Check file format.").
Proof.
  intros Hglob Hall. rewrite load_ses_spectra_found by done.
  apply Forall_file_list in Hall.
  assert (outcome (load_files os (file_list os directory_path file_pattern) [])
          = inr []) as Hloop.
  { apply load_files_skipped. eapply Forall_impl; [exact Hall|].
    intros p (lines & Hread & [Hnone|(i & Hi & Hangle)]).
    - by rewrite (load_file_no_marker _ _ lines).
    - by rewrite (load_file_no_angle _ _ lines i). }
  destruct (load_files _ _ _) as [out [e|ds]]; simplify_eq/=. done.
Qed.

(** C10. A matched file that contains no marker line at all is skipped
    silently: nothing is printed for it and it adds no slice, so the loop
    runs as if the file were not in the list; and when all files lack the
    marker, the no-valid-data error is raised with nothing printed. *)
Theorem file_without_marker_is_skipped_silently os :
  (∀ file_path lines,
     readlines os file_path = Some lines →
     first_marker lines = None →
     load_file os file_path = mret None ∧
     ∀ before after datasets,
       load_files os (before ++ file_path :: after) datasets =
       load_files os (before ++ after) datasets) ∧
  (∀ directory_path file_pattern,
     glob os (path_join os directory_path file_pattern) ≠ [] →
     Forall (λ file_path, ∃ lines,
               readlines os file_path = Some lines ∧ first_marker lines = None)
            (glob os (path_join os directory_path file_pattern)) →
     load_ses_spectra os directory_path file_pattern =
       raise (ValueError "No valid datasets were created. Check file format.")).
Proof.
  split.
  - intros p lines Hread Hnone.
    pose proof (load_file_no_marker os p lines Hread Hnone) as Hp.
    split; [done|]. intros before after datasets.
    rewrite !load_files_app. apply bind_ext. intros ds.
    cbn [load_files]. by rewrite Hp, bind_mret.
  - intros d pat Hglob Hall. rewrite load_ses_spectra_found by done.
    apply Forall_file_list in Hall.
    rewrite load_files_silent; [by rewrite bind_mret|].
    eapply Forall_impl; [exact Hall|].
    intros p (lines & Hread & Hnone). by apply (load_file_no_marker _ _ lines).
Qed.

(** A file on which both lookups of the header scan fail adds no array and
    has a warning printed, but raises nothing: the loop prints the warning
    and goes on to the remaining files with the arrays it had. *)
Lemma unparseable_angle_skips_file_with_warning os file_path lines i :
  readlines os file_path = Some lines →
  first_marker lines = Some i →
  try_float lines (Z.of_nat i - 3) = None →
  try_float lines (Z.of_nat i - 4) = None →
  load_file os file_path = Run [warning os file_path] (inr None) ∧
  ∀ before after datasets,
    load_files os (before ++ file_path :: after) datasets =
      (datasets' ← load_files os before datasets;
       _ ← print (warning os file_path);
       load_files os after datasets').
Proof.
  intros Hread Hi H3 H4.
  assert (load_file os file_path = Run [warning os file_path] (inr None)) as Hp.
  { apply (load_file_no_angle _ _ lines i); [done..|].
    unfold angle_lookup. by rewrite H3. }
  split; [done|]. intros before after datasets.
  rewrite load_files_app. apply bind_ext. intros ds.
  cbn [load_files]. by rewrite Hp.
Qed.

End errors.

Section error_runs.
Local Existing Instance Sample.float64.
Import Sample.

Lemma empty_glob_raises_FileNotFoundError_witness :
  glob dir_pair (path_join dir_pair "elsewhere" default_file_pattern) = [] ∧
  load_ses_spectra dir_pair "elsewhere" default_file_pattern =
    raise (FileNotFoundError
             "No files found in the directory: elsewhere with pattern S313_MgB2_*.txt").
Proof.
  split; [reflexivity|].
  apply (empty_glob_raises_FileNotFoundError dir_pair "elsewhere" default_file_pattern).
  reflexivity.
Defined.

Lemma no_dataset_raises_ValueError_witness :
  glob dir_unusable (path_join dir_unusable "run" default_file_pattern)
    = ["run/S313_MgB2_2.txt"; "run/S313_MgB2_1.txt"] ∧
  outcome (load_ses_spectra dir_unusable "run" default_file_pattern) =
    inl (ValueError "No valid datasets were created. Check file format.").
Proof.
  split; [reflexivity|].
  apply (no_dataset_raises_ValueError dir_unusable "run" default_file_pattern).
  - discriminate.
  - change (glob dir_unusable (path_join dir_unusable "run" default_file_pattern))
      with ["run/S313_MgB2_2.txt"; "run/S313_MgB2_1.txt"].
    repeat apply Forall_cons_2; [| |apply Forall_nil_2].
    + exists spectrum_no_angle. split; [reflexivity|].
      right. exists 4%nat. split; reflexivity.
    + exists notes. split; [reflexivity|]. left. reflexivity.
Defined.

Lemma file_without_marker_is_skipped_silently_witness :
  load_file dir_pair "run/readme.txt" = mret None ∧
  load_ses_spectra dir_unmarked "run" default_file_pattern =
    raise (ValueError "No valid datasets were created. Check file format.").
Proof.
  split.
  - apply (proj1 (file_without_marker_is_skipped_silently dir_pair)
             "run/readme.txt" notes); reflexivity.
  - apply (proj2 (file_without_marker_is_skipped_silently dir_unmarked)
             "run" default_file_pattern).
    + discriminate.
    + change (glob dir_unmarked (path_join dir_unmarked "run" default_file_pattern))
        with ["run/S313_MgB2_1.txt"].
      apply Forall_cons_2; [|apply Forall_nil_2].
      exists notes. split; reflexivity.
Defined.

Lemma unparseable_angle_skips_file_with_warning_witness :
  load_file dir_mixed "run/S313_MgB2_2.txt" =
    Run ["Warning: Could not parse angle in S313_MgB2_2.txt. Skipping."] (inr None) ∧
  load_files dir_mixed
    (["run/S313_MgB2_1.txt"] ++ "run/S313_MgB2_2.txt" :: ["run/S313_MgB2_3.txt"]) [] =
    (datasets' ← load_files dir_mixed ["run/S313_MgB2_1.txt"] [];
     _ ← print "Warning: Could not parse angle in S313_MgB2_2.txt. Skipping.";
     load_files dir_mixed ["run/S313_MgB2_3.txt"] datasets').
Proof.
  pose proof (unparseable_angle_skips_file_with_warning dir_mixed
                "run/S313_MgB2_2.txt" spectrum_no_angle 4
                eq_refl eq_refl eq_refl eq_refl) as [Hfile Hloop].
  split; [exact Hfile|]. apply Hloop.
Defined.

End error_runs.

Section angle.
Context `{Float64}.

(** ** Where the angle is read from *)

Lemma first_marker_Some lines i :
  first_marker lines = Some i ↔
  ∃ line, lines !! i = Some line ∧ contains marker line = true ∧
          ∀ j line', lines !! j = Some line' → (j < i)%nat → contains marker line' = false.
Proof.
  unfold first_marker. split.
  - intros Hfind. destruct (list_find _ lines) as [[i' line]|] eqn:Hf; simplify_eq/=.
    apply list_find_Some in Hf as (Hi & Hc & Hbefore).
    exists line. split_and!; [done|by apply Is_true_true|].
    intros j line' Hj Hlt. specialize (Hbefore j line' Hj Hlt).
    by apply Is_true_false.
  - intros (line & Hi & Hc & Hbefore).
    assert (list_find (λ line, Is_true (contains marker line)) lines = Some (i, line))
      as ->; [|done].
    apply list_find_Some. split_and!; [done|by apply Is_true_true|].
    intros j line' Hj Hlt. apply Is_true_false. eauto.
Qed.

Lemma first_marker_lt lines i : first_marker lines = Some i → (i < length lines)%nat.
Proof.
  intros (line & Hi & _)%first_marker_Some. by apply lookup_lt_Some in Hi.
Qed.

(** An index that is not negative is looked up as it is. *)
Lemma getitem_nonneg {A} (l : list A) (k : Z) :
  0 ≤ k → getitem l k = l !! Z.to_nat k.
Proof.
  intros Hk. unfold getitem. case_bool_decide as Hin; [done|].
  case_bool_decide; [lia|]. symmetry. apply lookup_ge_None. lia.
Qed.

(** A negative index within the length counts from the end. *)
Lemma getitem_negative {A} (l : list A) (k : Z) :
  - Z.of_nat (length l) ≤ k < 0 →
  getitem l k = l !! Z.to_nat (Z.of_nat (length l) + k) ∧ is_Some (getitem l k).
Proof.
  intros Hk. unfold getitem. case_bool_decide; [lia|].
  case_bool_decide; [|lia]. split; [done|]. apply lookup_lt_is_Some. lia.
Qed.

(** A negative index beyond the length is IndexError. *)
Lemma getitem_IndexError {A} (l : list A) (k : Z) :
  k < - Z.of_nat (length l) → getitem l k = None.
Proof.
  intros Hk. unfold getitem. case_bool_decide; [lia|]. by case_bool_decide; [lia|].
Qed.

(** With four lines or more above the marker, the two lookups read the
    third and the fourth line above it. *)
Lemma angle_lookup_above_marker lines i :
  (4 ≤ i)%nat →
  angle_lookup lines i =
    match lines !! (i - 3)%nat ≫= λ line, py_float (strip line) with
    | Some angle_value => Some angle_value
    | None => lines !! (i - 4)%nat ≫= λ line, py_float (strip line)
    end.
Proof.
  intros Hi. unfold angle_lookup, try_float.
  rewrite !getitem_nonneg by lia.
  replace (Z.to_nat (Z.of_nat i - 3)) with (i - 3)%nat by lia.
  by replace (Z.to_nat (Z.of_nat i - 4)) with (i - 4)%nat by lia.
Qed.

(** C9, as amended.  For a file whose first marker line is at index
    [i < 3] (on the fallback, [i < 4]) and which has at least [3 - i]
    (resp. [4 - i]) lines, the lookup [lines[i - 3]] (resp. [lines[i - 4]])
    raises no IndexError: it reads the line at index [len(lines) + i - 3]
    (resp. [len(lines) + i - 4]), counted from the end of the file, and
    when that line parses as a float the file gets that angle instead of
    being skipped.  In a file with fewer lines the lookup raises
    IndexError. *)
Theorem negative_index_reads_from_the_end os file_path lines i :
  readlines os file_path = Some lines →
  first_marker lines = Some i →
  ((i < 3)%nat → (3 - i ≤ length lines)%nat →
     getitem lines (Z.of_nat i - 3) = lines !! (length lines + i - 3)%nat ∧
     is_Some (getitem lines (Z.of_nat i - 3)) ∧
     ∀ line angle_value,
       lines !! (length lines + i - 3)%nat = Some line →
       py_float (strip line) = Some angle_value →
       load_file os file_path =
         (df ← read_csv os file_path "009"%char (i + 1);
          mret (Some (DataArray_of df angle_value)))) ∧
  ((i < 4)%nat → (4 - i ≤ length lines)%nat →
     getitem lines (Z.of_nat i - 4) = lines !! (length lines + i - 4)%nat ∧
     is_Some (getitem lines (Z.of_nat i - 4)) ∧
     ∀ line angle_value,
       try_float lines (Z.of_nat i - 3) = None →
       lines !! (length lines + i - 4)%nat = Some line →
       py_float (strip line) = Some angle_value →
       load_file os file_path =
         (df ← read_csv os file_path "009"%char (i + 1);
          mret (Some (DataArray_of df angle_value)))) ∧
  ((i < 3)%nat → (length lines < 3 - i)%nat →
     getitem lines (Z.of_nat i - 3) = None) ∧
  ((i < 4)%nat → (length lines < 4 - i)%nat →
     getitem lines (Z.of_nat i - 4) = None).
Proof.
  intros Hread Hi. split_and!.
  - intros Hlt Hlen.
    destruct (getitem_negative lines (Z.of_nat i - 3)) as [Hget Hsome]; [lia|].
    replace (Z.to_nat (Z.of_nat (length lines) + (Z.of_nat i - 3)))
      with (length lines + i - 3)%nat in Hget by lia.
    split_and!; [done..|]. intros line angle_value Hline Hfloat.
    apply (load_file_angle _ _ lines i); [done..|].
    unfold angle_lookup, try_float. rewrite Hget, Hline. simpl. by rewrite Hfloat.
  - intros Hlt Hlen.
    destruct (getitem_negative lines (Z.of_nat i - 4)) as [Hget Hsome]; [lia|].
    replace (Z.to_nat (Z.of_nat (length lines) + (Z.of_nat i - 4)))
      with (length lines + i - 4)%nat in Hget by lia.
    split_and!; [done..|]. intros line angle_value Hfirst Hline Hfloat.
    apply (load_file_angle _ _ lines i); [done..|].
    unfold angle_lookup. rewrite Hfirst.
    unfold try_float. rewrite Hget, Hline. simpl. by rewrite Hfloat.
  - intros Hlt Hlen. apply getitem_IndexError. lia.
  - intros Hlt Hlen. apply getitem_IndexError. lia.
Qed.

End angle.

Section angle_runs.
Local Existing Instance Sample.float64.
Import Sample.

(** C9 as stated fails on a file that is only the marker line: the marker
    is at index 0, and both [lines[-3]] and [lines[-4]] raise IndexError, so
    the file takes the skip path with its warning. *)
Lemma marker_only_takes_IndexError_path :
  first_marker marker_only = Some 0%nat ∧
  getitem marker_only (Z.of_nat 0 - 3) = None ∧
  getitem marker_only (Z.of_nat 0 - 4) = None ∧
  load_file dir_marker_only "run/S313_MgB2_1.txt" =
    Run ["Warning: Could not parse angle in S313_MgB2_1.txt. Skipping."] (inr None).
Proof. split_and!; reflexivity. Qed.

Lemma negative_index_reads_from_the_end_witness :
  first_marker short_header = Some 2%nat ∧
  getitem short_header (Z.of_nat 2 - 3) = short_header !! 4%nat ∧
  load_file dir_short "run/S313_MgB2_1.txt" =
    (df ← read_csv dir_short "run/S313_MgB2_1.txt" "009"%char 3;
     mret (Some (DataArray_of df (Some 2)))).
Proof.
  pose proof (negative_index_reads_from_the_end dir_short
                "run/S313_MgB2_1.txt" short_header 2 eq_refl eq_refl)
    as (Hfirst & _).
  destruct Hfirst as (Hget & _ & Hload); [simpl; lia..|].
  split_and!; [reflexivity|exact Hget|].
  apply (Hload (row ["2"])); reflexivity.
Defined.

(** C2 on the code: the marker of [short_header] is on its third line, so
    no line lies three or four lines above it; yet the file is not skipped
    and nothing is printed: [lines[2 - 3]] is the last row of the table,
    and the slice gets its number, 2, as angle. *)
Lemma angle_read_from_the_last_row :
  first_marker short_header = Some 2%nat ∧
  short_header !! 4%nat = Some (row ["2"]) ∧
  ∃ arr,
    load_ses_spectra dir_short "run" default_file_pattern = Run [] (inr arr) ∧
    coord0 arr = [Some 2].
Proof. split_and!; [reflexivity..|]. eexists. split; reflexivity. Qed.

End angle_runs.

Section table.
Context `{Float64}.

(** ** The table of a file *)

Lemma split_cons sep s : ∃ field fields, split sep s = field :: fields.
Proof.
  induction s as [|c s (f & fs & IH)]; simpl; [by eauto|].
  case_bool_decide; [by eauto|]. rewrite IH. eauto.
Qed.

Lemma body_rows_cons lines i :
  Forall (λ fields, ∃ field rest, fields = field :: rest) (body_rows lines i).
Proof.
  unfold body_rows. apply Forall_fmap, Forall_true. intros l. apply split_cons.
Qed.

Lemma parse_rows_fit w body :
  Forall (λ fields, (length fields ≤ w)%nat) body →
  parse_rows w body =
    mret ((λ fields, (to_numeric <$> fields) ++ replicate (w - length fields) nan)
            <$> body).
Proof.
  induction 1 as [|fields body Hfit _ IH]; cbn [parse_rows fmap list_fmap]; [done|].
  unfold parse_row. rewrite bool_decide_eq_false_2 by lia.
  by rewrite bind_mret, IH, bind_mret.
Qed.

Lemma parse_rows_returns w body rs :
  outcome (parse_rows w body) = inr rs →
  Forall (λ fields, (length fields ≤ w)%nat) body.
Proof.
  revert rs. induction body as [|fields body IH]; intros rs Hrs; [done|].
  cbn [parse_rows] in Hrs.
  apply bind_outcome_inr in Hrs as (r & Hr & Hrs).
  apply bind_outcome_inr in Hrs as (rs' & Hrs' & _).
  constructor; [|by eapply IH].
  unfold parse_row in Hr. case_bool_decide; [done|lia].
Qed.

(** [read_csv] in terms of the rows after the marker. *)
Lemma read_csv_body os file_path lines i :
  readlines os file_path = Some lines →
  read_csv os file_path "009"%char (i + 1) =
    match body_rows lines i with
    | [] => raise EmptyDataError
    | first :: _ =>
        rs ← parse_rows (length first) (body_rows lines i);
        mret {| width := length first; rows := rs |}
    end.
Proof. intros Hread. unfold read_csv, body_rows. by rewrite Hread. Qed.

Lemma read_csv_table_ok os file_path lines i :
  readlines os file_path = Some lines →
  table_ok (body_rows lines i) →
  read_csv os file_path "009"%char (i + 1) =
    mret {| width := table_width (body_rows lines i);
            rows := (λ fields, (to_numeric <$> fields) ++
                               replicate (table_width (body_rows lines i) - length fields) nan)
                      <$> body_rows lines i |}.
Proof.
  intros Hread [Hne Hfit]. rewrite (read_csv_body _ _ lines) by done.
  unfold table_width in *. destruct (body_rows lines i) as [|first body]; [done|].
  change (default [] (head (first :: body))) with first in *.
  rewrite parse_rows_fit by done. reflexivity.
Qed.

Lemma read_csv_returns os file_path lines i df :
  readlines os file_path = Some lines →
  outcome (read_csv os file_path "009"%char (i + 1)) = inr df →
  table_ok (body_rows lines i).
Proof.
  intros Hread. rewrite (read_csv_body _ _ lines) by done.
  unfold table_ok, table_width.
  destruct (body_rows lines i) as [|first body]; [done|]. simpl.
  intros (rs & Hrs & _)%bind_outcome_inr. split; [done|].
  by eapply parse_rows_returns.
Qed.

Lemma DataArray_of_table lines i angle_value :
  DataArray_of
    {| width := table_width (body_rows lines i);
       rows := (λ fields, (to_numeric <$> fields) ++
                          replicate (table_width (body_rows lines i) - length fields) nan)
                 <$> body_rows lines i |} angle_value =
  slice lines i angle_value.
Proof.
  unfold DataArray_of, slice, iloc_first, iloc_rest; simpl.
  f_equal; [|f_equal]; rewrite <-list_fmap_compose;
    (apply Forall_fmap_ext_1; eapply Forall_impl; [apply body_rows_cons|]);
    by intros fields (field & rest & ->).
Qed.

(** The loop body on a well-formed file. *)
Lemma load_file_slice os file_path lines i angle_value :
  readlines os file_path = Some lines →
  first_marker lines = Some i →
  angle_lookup lines i = Some angle_value →
  table_ok (body_rows lines i) →
  load_file os file_path = mret (Some (slice lines i angle_value)).
Proof.
  intros Hread Hi Ha Hok. rewrite (load_file_angle _ _ lines i angle_value) by done.
  rewrite (read_csv_table_ok _ _ lines) by done.
  by rewrite bind_mret, DataArray_of_table.
Qed.

(** Whenever the loop body returns an array, it is the slice of the file. *)
Lemma load_file_returns os file_path lines d :
  readlines os file_path = Some lines →
  outcome (load_file os file_path) = inr (Some d) →
  ∃ i angle_value,
    first_marker lines = Some i ∧ angle_lookup lines i = Some angle_value ∧
    table_ok (body_rows lines i) ∧ d = slice lines i angle_value.
Proof.
  intros Hread Hd.
  destruct (first_marker lines) as [i|] eqn:Hi;
    [|by rewrite (load_file_no_marker _ _ lines) in Hd].
  destruct (angle_lookup lines i) as [a|] eqn:Ha;
    [|by rewrite (load_file_no_angle _ _ lines i) in Hd].
  rewrite (load_file_angle _ _ lines i a) in Hd by done.
  apply bind_outcome_inr in Hd as (df & Hdf & Hd).
  assert (table_ok (body_rows lines i)) as Hok by by eapply read_csv_returns.
  exists i, a. split_and!; [done..|].
  rewrite (read_csv_table_ok _ _ lines) in Hdf by done. simplify_eq/=.
  by rewrite DataArray_of_table.
Qed.

(** C8. For every file with a marker line, the table read for the file is
    made of the tab-separated rows that start on the line right after the
    first marker line: the first field of each row is its energy
    coordinate and the remaining fields are its intensities along the pixel
    dimension. *)
Theorem table_is_read_after_the_marker os file_path lines i d :
  readlines os file_path = Some lines →
  first_marker lines = Some i →
  outcome (load_file os file_path) = inr (Some d) →
  let body :=
    (λ l, split "009"%char (chomp l)) <$>
    filter (λ l, blank_line l = false) (drop (i + 1) lines) in
  let w := length (default [] (head body)) in
  energy d = (λ fields, to_numeric (default EmptyString (head fields))) <$> body ∧
  values d =
    [(λ fields, (to_numeric <$> tail fields) ++ replicate (w - length fields) nan)
       <$> body] ∧
  y_pixel d = (w - 1)%nat.
Proof.
  intros Hread Hi Hd.
  apply (load_file_returns _ _ lines) in Hd as (i' & a & Hi' & _ & _ & ->); [|done].
  by simplify_eq.
Qed.

End table.

Section table_runs.
Local Existing Instance Sample.float64.
Import Sample.

Lemma table_is_read_after_the_marker_witness :
  ∃ d,
    outcome (load_file dir_pair "run/S313_MgB2_1.txt") = inr (Some d) ∧
    energy d = [Some 1; Some 2] ∧
    values d = [[[Some 10; Some 20]; [Some 30; Some 40]]] ∧
    y_pixel d = 2%nat.
Proof.
  exists (slice (H:=float64) spectrum_12 4 (Some 12)). split; [reflexivity|].
  apply (table_is_read_after_the_marker dir_pair "run/S313_MgB2_1.txt"
           spectrum_12 4 (slice (H:=float64) spectrum_12 4 (Some 12)));
    reflexivity.
Defined.

End table_runs.

(** ** The ky coordinate *)

Lemma length_linspace start stop num : length (linspace start stop num) = num.
Proof.
  unfold linspace.
  assert (∀ f g : Qc → Qc, length (g <$> (f <$>
            ((λ i : nat, Qc_of_Z (Z.of_nat i)) <$> seq 0 num))) = num) as Hlen.
  { intros f g. by rewrite !length_fmap, length_seq. }
  repeat case_bool_decide; rewrite ?length_insert; apply Hlen.
Qed.

(** The samples of [linspace]: [start] alone when one is asked for, else
    [start + i * (stop - start) / (num - 1)], which ends on [stop]. *)
Lemma linspace_lookup start stop num i :
  (i < num)%nat →
  linspace start stop num !! i =
    Some (if decide (num = 1%nat) then start
          else start + Qc_of_Z (Z.of_nat i) *
                         ((stop - start) / Qc_of_Z (Z.of_nat (num - 1))))%Qc.
Proof.
  intros Hi. unfold linspace.
  assert (∀ f g : Qc → Qc,
            (g <$> (f <$> ((λ i : nat, Qc_of_Z (Z.of_nat i)) <$> seq 0 num))) !! i
            = Some (g (f (Qc_of_Z (Z.of_nat i))))) as Hlook.
  { intros f g. rewrite !list_lookup_fmap, lookup_seq_lt by done. done. }
  case_decide as Hone.
  - subst num. assert (i = 0%nat) as -> by lia.
    rewrite (bool_decide_eq_false_2 (0 < 1 - 1)%nat),
      (bool_decide_eq_false_2 (1 < 1)%nat) by lia.
    rewrite Hlook. f_equal. change (Qc_of_Z (Z.of_nat 0)) with (Qc_of_Z 0).
    rewrite Z2Qc_inj_0. ring.
  - assert (Qc_of_Z (Z.of_nat (num - 1)) ≠ 0%Qc) as Hdiv.
    { rewrite <-Z2Qc_inj_0. intros Heq%Z2Qc_inj. lia. }
    rewrite (bool_decide_eq_true_2 (0 < num - 1)%nat),
      (bool_decide_eq_true_2 (1 < num)%nat) by lia.
    destruct (decide (i = num - 1)%nat) as [->|Hlast].
    + rewrite list_lookup_insert_eq
        by (rewrite !length_fmap, length_seq; lia).
      f_equal. field. done.
    + rewrite list_lookup_insert_ne by done. rewrite Hlook. f_equal. ring.
Qed.

Section concat.
Context `{Float64}.

(** ** Concatenation *)

Lemma all_equal_true {A} `{EqDecision A} (l : list A) :
  all_equal l = true ↔ ∀ x y, x ∈ l → y ∈ l → x = y.
Proof.
  destruct l as [|x l]; simpl.
  - split; [|done]. intros _ x y Hx. by apply elem_of_nil in Hx.
  - rewrite <-(Is_true_true (forallb _ _)), forallb_True, Forall_forall. split.
    + intros Hall y z Hy Hz.
      assert (∀ w, w ∈ x :: l → w = x) as Hx.
      { intros w [->|Hw]%elem_of_cons; [done|].
        specialize (Hall w Hw). simpl in Hall. by apply bool_decide_unpack in Hall. }
      by rewrite (Hx y), (Hx z).
    + intros Hall y Hy. simpl. apply bool_decide_pack, Hall.
      * by apply list_elem_of_further.
      * apply list_elem_of_here.
Qed.

Lemma all_equal_fmap_true {A B} `{EqDecision B} (f : A → B) (l : list A) :
  all_equal (f <$> l) = true ↔ ∀ x y, x ∈ l → y ∈ l → f x = f y.
Proof.
  rewrite all_equal_true. split.
  - intros Hall x y Hx Hy. apply Hall; by apply list_elem_of_fmap_2.
  - intros Hall ? ? (x & -> & Hx)%list_elem_of_fmap (y & -> & Hy)%list_elem_of_fmap.
    by apply Hall.
Qed.

(** When the sizes of y_pixel differ, [concat_outer] raises. *)
Lemma concat_outer_conflicting_sizes datasets d1 d2 :
  d1 ∈ datasets → d2 ∈ datasets → y_pixel d1 ≠ y_pixel d2 →
  concat_outer datasets = raise (AlignmentError "y_pixel").
Proof.
  intros H1 H2 Hne. unfold concat_outer.
  destruct datasets as [|d0 datasets]; [by apply elem_of_nil in H1|].
  destruct (all_equal (y_pixel <$> d0 :: datasets)) eqn:Hall; [|done].
  exfalso. apply Hne. by eapply all_equal_fmap_true.
Qed.

(** When they agree and the energy indexes can be aligned, it returns. *)
Lemma concat_outer_aligned d0 datasets :
  (∀ d1 d2, d1 ∈ d0 :: datasets → d2 ∈ d0 :: datasets → y_pixel d1 = y_pixel d2) →
  (∀ d1 d2, d1 ∈ d0 :: datasets → d2 ∈ d0 :: datasets → energy d1 = energy d2) ∨
  Forall (λ d, NoDup (energy d)) (d0 :: datasets) →
  concat_outer (d0 :: datasets) =
    mret {| dim0 := dim0 d0;
            coord0 := concat (coord0 <$> d0 :: datasets);
            energy := joined_index (d0 :: datasets);
            y_pixel := y_pixel d0;
            values :=
              if all_equal (energy <$> d0 :: datasets)
              then concat (values <$> d0 :: datasets)
              else concat (reindex (joined_index (d0 :: datasets)) <$> d0 :: datasets);
            ky := None |}.
Proof.
  intros Hpix Halign. unfold concat_outer, joined_index.
  rewrite (proj2 (all_equal_fmap_true y_pixel (d0 :: datasets))) by done.
  cbn [negb].
  destruct (all_equal (energy <$> d0 :: datasets)) eqn:Hall; [done|].
  destruct Halign as [Heq|Hnodup].
  { apply all_equal_fmap_true in Heq. congruence. }
  assert (forallb (λ d, bool_decide (NoDup (energy d))) (d0 :: datasets) = true)
    as ->; [|done].
  apply Is_true_true, forallb_True. eapply Forall_impl; [exact Hnodup|].
  intros d Hd. by apply bool_decide_pack.
Qed.

(** Whatever it returns has the shape of the lemma above. *)
Lemma concat_outer_returns datasets c :
  outcome (concat_outer datasets) = inr c →
  ∃ d0 datasets',
    datasets = d0 :: datasets' ∧
    (∀ d1 d2, d1 ∈ datasets → d2 ∈ datasets → y_pixel d1 = y_pixel d2) ∧
    c = {| dim0 := dim0 d0;
           coord0 := concat (coord0 <$> datasets);
           energy := joined_index datasets;
           y_pixel := y_pixel d0;
           values :=
             if all_equal (energy <$> datasets)
             then concat (values <$> datasets)
             else concat (reindex (joined_index datasets) <$> datasets);
           ky := None |}.
Proof.
  unfold concat_outer, joined_index. destruct datasets as [|d0 datasets]; [done|].
  destruct (all_equal (y_pixel <$> d0 :: datasets)) eqn:Hpix; [|done].
  cbn [negb]. intros Hc. exists d0, datasets. split_and!; [done| |].
  { by apply all_equal_fmap_true. }
  destruct (all_equal (energy <$> d0 :: datasets)) eqn:Hall.
  - by simplify_eq/=.
  - destruct (forallb _ _); by simplify_eq/=.
Qed.

(** [combine] attaches the coordinate to whatever [concat_outer] returns. *)
Lemma combine_concat d0 datasets :
  combine (d0 :: datasets) =
    (c ← concat_outer (d0 :: datasets); mret (with_ky c)).
Proof.
  unfold combine. apply bind_ext. intros c.
  unfold assign_coords_ky, rename, with_ky. cbn [y_pixel dim0].
  by rewrite bool_decide_eq_true_2 by apply length_linspace.
Qed.

Lemma combine_returns datasets arr :
  outcome (combine datasets) = inr arr →
  ∃ c, outcome (concat_outer datasets) = inr c ∧ arr = with_ky c.
Proof.
  destruct datasets as [|d0 datasets]; [done|]. rewrite combine_concat.
  intros (c & Hc & Harr)%bind_outcome_inr. exists c. by simplify_eq/=.
Qed.

Lemma load_ses_spectra_returns os directory_path file_pattern arr :
  outcome (load_ses_spectra os directory_path file_pattern) = inr arr →
  ∃ datasets c,
    outcome (load_files os (file_list os directory_path file_pattern) []) = inr datasets ∧
    outcome (concat_outer datasets) = inr c ∧ arr = with_ky c.
Proof.
  intros Harr.
  destruct (decide (glob os (path_join os directory_path file_pattern) = []))
    as [Hglob|Hglob].
  { apply load_ses_spectra_no_files in Hglob. congruence. }
  rewrite load_ses_spectra_found in Harr by done.
  apply bind_outcome_inr in Harr as (datasets & Hds & Harr).
  apply combine_returns in Harr as (c & Hc & ->). eauto.
Qed.

End concat.

Section shape.
Context `{Float64}.

(** ** The arrays the loop collects *)

Lemma load_file_unreadable os file_path :
  readlines os file_path = None →
  load_file os file_path = raise (OSError file_path).
Proof. intros Hread. unfold load_file. by rewrite Hread. Qed.

Lemma load_file_outcome os file_path r :
  outcome (load_file os file_path) = inr r →
  r = file_slice os file_path ∧ ∀ d, r = Some d → sliced d.
Proof.
  intros Hr. unfold file_slice.
  destruct (readlines os file_path) as [lines|] eqn:Hread;
    [|by rewrite load_file_unreadable in Hr].
  cbn [mbind option_bind].
  destruct (first_marker lines) as [i|] eqn:Hi; cbn [mbind option_bind].
  { destruct (angle_lookup lines i) as [a|] eqn:Ha; cbn [mbind option_bind].
    - rewrite (load_file_angle _ _ lines i a) in Hr by done.
      apply bind_outcome_inr in Hr as (df & Hdf & Hr).
      assert (table_ok (body_rows lines i)) as Hok by by eapply read_csv_returns.
      rewrite (read_csv_table_ok _ _ lines) in Hdf by done. simplify_eq/=.
      rewrite DataArray_of_table. split; [done|].
      intros d [= <-]. by exists lines, i, a.
    - rewrite (load_file_no_angle _ _ lines i) in Hr by done. by simplify_eq/=. }
  rewrite (load_file_no_marker _ _ lines) in Hr by done. by simplify_eq/=.
Qed.

Lemma load_files_outcome os files datasets datasets' :
  outcome (load_files os files datasets) = inr datasets' →
  datasets' = datasets ++ omap (file_slice os) files ∧
  Forall sliced (omap (file_slice os) files).
Proof.
  revert datasets. induction files as [|p files IH]; intros datasets Hds.
  - simplify_eq/=. by rewrite app_nil_r.
  - cbn [load_files] in Hds. apply bind_outcome_inr in Hds as (r & Hr & Hds).
    apply load_file_outcome in Hr as [-> Hsliced].
    apply IH in Hds as [-> Hall]. cbn [omap list_omap].
    destruct (file_slice os p) as [d|]; [|done].
    rewrite <-app_assoc. split; [done|]. constructor; [|done]. by apply Hsliced.
Qed.

Lemma sliced_values d : sliced d → values d = [plane d].
Proof. by intros (lines & i & a & _ & ->). Qed.

Lemma sliced_coord0 d : sliced d → length (coord0 d) = 1%nat.
Proof. by intros (lines & i & a & _ & ->). Qed.

Lemma sliced_dim0 d : sliced d → dim0 d = "angle".
Proof. by intros (lines & i & a & _ & ->). Qed.

Lemma sliced_plane_length d : sliced d → length (plane d) = length (energy d).
Proof.
  intros (lines & i & a & _ & ->). unfold plane; simpl.
  by rewrite !length_fmap.
Qed.

Lemma sliced_pixel_shaped d : sliced d → pixel_shaped d.
Proof.
  intros (lines & i & a & [_ Hfit] & ->). unfold pixel_shaped; simpl.
  constructor; [|done]. apply Forall_fmap.
  pose proof (body_rows_cons lines i) as Hcons.
  rewrite Forall_forall in Hfit, Hcons. apply Forall_forall. intros fields Hin.
  destruct (Hcons _ Hin) as (field & rest & ->). specialize (Hfit _ Hin).
  unfold row_intensities. simpl in *.
  rewrite length_app, length_fmap, length_replicate. lia.
Qed.

Lemma reindex_plane_shaped idx old n pl :
  Forall (λ row : list f64, length row = n) pl →
  Forall (λ row : list f64, length row = n) (reindex_plane idx old n pl).
Proof.
  intros Hpl. unfold reindex_plane. apply Forall_fmap, Forall_true. intros e. simpl.
  destruct (list_find _ old) as [[j ?]|]; [|by rewrite length_replicate].
  destruct (pl !! j) as [row|] eqn:Hrow; simpl; [|by rewrite length_replicate].
  by eapply Forall_lookup_1 in Hpl.
Qed.

(** Concatenation keeps the rows at the common number of pixel columns. *)
Lemma concat_outer_pixel_shaped datasets c :
  Forall pixel_shaped datasets →
  outcome (concat_outer datasets) = inr c →
  pixel_shaped c.
Proof.
  intros Hshaped (d0 & datasets' & Hds & Hpix & ->)%concat_outer_returns.
  unfold pixel_shaped. cbn [values y_pixel].
  assert (∀ d, d ∈ datasets → pixel_shaped d ∧ y_pixel d = y_pixel d0) as Hd.
  { intros d Hd. split; [by eapply Forall_forall in Hshaped|].
    apply Hpix; [done|]. subst datasets. apply list_elem_of_here. }
  clear Hds Hpix Hshaped.
  destruct (all_equal _); apply Forall_concat, Forall_fmap, Forall_forall;
    intros d [Hsh Hy]%Hd; unfold pixel_shaped in Hsh; rewrite Hy in Hsh; simpl.
  - done.
  - unfold reindex. apply Forall_fmap. eapply Forall_impl; [exact Hsh|].
    intros pl Hpl. simpl. rewrite Hy. by apply reindex_plane_shaped.
Qed.

Lemma ky_box_rows os directory_path file_pattern arr :
  outcome (load_ses_spectra os directory_path file_pattern) = inr arr →
  Forall (Forall (λ row : list f64, length row = y_pixel arr)) (values arr).
Proof.
  intros (datasets & c & Hds & Hc & ->)%load_ses_spectra_returns.
  cbn [with_ky y_pixel values].
  apply load_files_outcome in Hds as [-> Hsliced].
  apply (concat_outer_pixel_shaped (omap (file_slice os)
           (file_list os directory_path file_pattern))); [|done].
  eapply Forall_impl; [exact Hsliced|]. apply sliced_pixel_shaped.
Qed.

(** C6. For every successful invocation, the ky coordinate attached to the
    y_pixel dimension is [linspace(-1.0, 1.0, n)] for [n] the number of
    pixel columns of the combined array, whatever the files hold: it has
    [n] entries, every row of the array has [n] entries too, and entry [i]
    is [-1 + i * 2 / (n - 1)] (just [-1] when [n = 1]). *)
Theorem ky_is_linspace_over_pixel_columns os directory_path file_pattern arr :
  outcome (load_ses_spectra os directory_path file_pattern) = inr arr →
  ky arr = Some (linspace (- 1)%Qc 1%Qc (y_pixel arr)) ∧
  length (linspace (- 1)%Qc 1%Qc (y_pixel arr)) = y_pixel arr ∧
  Forall (Forall (λ row : list f64, length row = y_pixel arr)) (values arr) ∧
  ∀ i, (i < y_pixel arr)%nat →
    linspace (- 1)%Qc 1%Qc (y_pixel arr) !! i =
      Some (if decide (y_pixel arr = 1%nat) then - 1
            else - 1 + Qc_of_Z (Z.of_nat i) *
                         ((1 - - 1) / Qc_of_Z (Z.of_nat (y_pixel arr - 1))))%Qc.
Proof.
  intros (datasets & c & Hds & Hc & ->)%load_ses_spectra_returns.
  cbn [with_ky ky y_pixel values]. split_and!.
  - done.
  - apply length_linspace.
  - apply load_files_outcome in Hds as [-> Hsliced].
    apply (concat_outer_pixel_shaped (omap (file_slice os)
             (file_list os directory_path file_pattern))); [|done].
    eapply Forall_impl; [exact Hsliced|]. apply sliced_pixel_shaped.
  - intros i Hi. by apply linspace_lookup.
Qed.

End shape.

Section ky_runs.
Local Existing Instance Sample.float64.
Import Sample.

Lemma ky_is_linspace_over_pixel_columns_witness :
  ∃ arr,
    outcome (load_ses_spectra dir_pair "run" default_file_pattern) = inr arr ∧
    y_pixel arr = 2%nat ∧
    ky arr = Some (linspace (- 1)%Qc 1%Qc 2).
Proof.
  eexists. split; [reflexivity|]. split; [reflexivity|].
  lazymatch goal with
  | |- ky ?arr = _ =>
      exact (proj1 (ky_is_linspace_over_pixel_columns dir_pair "run"
                      default_file_pattern arr eq_refl))
  end.
Defined.

End ky_runs.

Section one_slice_per_file.
Context `{Float64}.

(** ** One kx entry per well-formed file *)

(** What the loop body makes of a well-formed file. *)
Lemma load_file_well_formed os file_path lines :
  readlines os file_path = Some lines →
  well_formed lines →
  ∃ d angle_value,
    load_file os file_path = mret (Some d) ∧
    file_slice os file_path = Some d ∧
    sliced d ∧
    angle_of (contents os file_path) = Some angle_value ∧
    coord0 d = [angle_value] ∧
    y_pixel d = pixel_columns (contents os file_path) ∧
    energy d = energy_column (contents os file_path).
Proof.
  intros Hread (i & a & Hi & Ha & Hok).
  exists (slice lines i a), a. split_and!.
  - by apply load_file_slice.
  - unfold file_slice. rewrite Hread. cbn [mbind option_bind].
    rewrite Hi. cbn [mbind option_bind]. by rewrite Ha.
  - by exists lines, i, a.
  - unfold angle_of, contents. rewrite Hread. simpl. by rewrite Hi.
  - done.
  - unfold pixel_columns, table_of, contents. rewrite Hread. simpl. by rewrite Hi.
  - unfold energy_column, table_of, contents. rewrite Hread. simpl. by rewrite Hi.
Qed.

Lemma load_files_well_formed os files datasets :
  Forall (λ file_path, ∃ lines,
            readlines os file_path = Some lines ∧ well_formed lines) files →
  load_files os files datasets = mret (datasets ++ omap (file_slice os) files) ∧
  length (omap (file_slice os) files) = length files.
Proof.
  intros Hall. revert datasets.
  induction Hall as [|p files (lines & Hread & Hwf) _ IH]; intros datasets.
  - cbn. by rewrite app_nil_r.
  - destruct (load_file_well_formed os p lines Hread Hwf)
      as (d & a & Hload & Hslice & _).
    cbn [load_files omap list_omap]. rewrite Hload, Hslice, bind_mret.
    destruct (IH (datasets ++ [d])) as [-> Hlen].
    rewrite <-app_assoc. split; [done|]. simpl. by rewrite Hlen.
Qed.

Lemma concat_singletons {A B} (f : A → list B) (l : list A) :
  Forall (λ x, length (f x) = 1%nat) l → length (concat (f <$> l)) = length l.
Proof.
  induction 1 as [|x l Hx _ IH]; [done|].
  cbn. rewrite length_app, Hx, IH. done.
Qed.

(** C1, as amended.  For every directory containing N >= 1 well-formed files
    matching the glob pattern, each with a parseable angle, the angles
    distinct, whose tables have the same number of pixel columns and whose
    energy columns are all equal or each free of duplicates, the DataArray
    returned by [load_ses_spectra] has a kx dimension of length exactly N
    (one slice per file). *)
Theorem kx_has_one_entry_per_file os directory_path file_pattern :
  let files := glob os (path_join os directory_path file_pattern) in
  files ≠ [] →
  Forall (λ file_path, ∃ lines,
            readlines os file_path = Some lines ∧ well_formed lines) files →
  NoDup (omap (λ file_path, angle_of (contents os file_path)) files) →
  (∀ p q, p ∈ files → q ∈ files →
     pixel_columns (contents os p) = pixel_columns (contents os q)) →
  (∀ p q, p ∈ files → q ∈ files →
     energy_column (contents os p) = energy_column (contents os q)) ∨
  (∀ p, p ∈ files → NoDup (energy_column (contents os p))) →
  ∃ arr,
    outcome (load_ses_spectra os directory_path file_pattern) = inr arr ∧
    dim0 arr = "kx" ∧
    length (coord0 arr) = length files.
Proof.
  intros files Hne Hwf _ Hpix Henergy. subst files.
  set (files := glob os (path_join os directory_path file_pattern)) in *.
  rewrite load_ses_spectra_found by done.
  pose proof (proj1 (Forall_file_list os directory_path file_pattern _) Hwf) as Hwf'.
  destruct (load_files_well_formed os _ [] Hwf') as [Hload Hlen].
  rewrite Hload, bind_mret. cbn [app].
  set (fl := file_list os directory_path file_pattern) in *.
  assert (∀ p, p ∈ fl ↔ p ∈ files) as Hfl.
  { intros p. unfold fl, file_list, sorted. by rewrite merge_sort_Permutation. }
  assert (∀ d, d ∈ omap (file_slice os) fl →
            ∃ p, p ∈ files ∧ sliced d ∧
                 y_pixel d = pixel_columns (contents os p) ∧
                 energy d = energy_column (contents os p)) as Hd.
  { intros d (p & Hp & Hslice)%list_elem_of_omap.
    pose proof (proj1 (Forall_forall _ _) Hwf' p Hp) as (lines & Hread & Hlines).
    destruct (load_file_well_formed os p lines Hread Hlines)
      as (d' & a & _ & Hslice' & Hsl & _ & _ & Hy & He).
    exists p. rewrite Hslice in Hslice'. simplify_eq. by rewrite <-Hfl. }
  destruct (omap (file_slice os) fl) as [|d0 datasets] eqn:Hds.
  { exfalso. apply Hne. apply length_zero_iff_nil. unfold files.
    rewrite <-(length_file_list os directory_path file_pattern).
    fold fl. by rewrite <-Hlen. }
  rewrite combine_concat, concat_outer_aligned, bind_mret.
  - eexists. split; [done|]. cbn [with_ky dim0 coord0].
    destruct (Hd d0) as (p0 & _ & Hsl0 & _); [apply list_elem_of_here|].
    rewrite (sliced_dim0 d0 Hsl0). split; [done|].
    rewrite concat_singletons.
    + rewrite Hlen. apply length_file_list.
    + apply Forall_forall. intros d (p & _ & Hsl & _)%Hd. by apply sliced_coord0.
  - intros d1 d2 (p1 & Hp1 & _ & -> & _)%Hd (p2 & Hp2 & _ & -> & _)%Hd.
    by apply Hpix.
  - destruct Henergy as [Heq|Hnodup]; [left|right].
    + intros d1 d2 (p1 & Hp1 & _ & _ & ->)%Hd (p2 & Hp2 & _ & _ & ->)%Hd.
      by apply Heq.
    + apply Forall_forall. intros d (p & Hp & _ & _ & ->)%Hd. by apply Hnodup.
Qed.

End one_slice_per_file.

Section one_slice_per_file_runs.
Local Existing Instance Sample.float64.
Import Sample.

Local Ltac each_file H :=
  repeat (apply elem_of_cons in H as [->|H]); [..|by apply elem_of_nil in H].

Local Ltac table_is_ok :=
  split; [discriminate|repeat constructor; compute; lia].

Lemma spectrum_12_well_formed : well_formed spectrum_12.
Proof. exists 4%nat, (Some 12). split_and!; [reflexivity..|table_is_ok]. Qed.

Lemma spectrum_15_well_formed : well_formed spectrum_15.
Proof. exists 4%nat, (Some 15). split_and!; [reflexivity..|table_is_ok]. Qed.

Lemma spectrum_wide_well_formed : well_formed spectrum_wide.
Proof. exists 4%nat, (Some 18). split_and!; [reflexivity..|table_is_ok]. Qed.

(** C1 as stated fails on a directory of two well-formed files with
    distinct angles, one of two pixel columns and one of three: the
    concatenation raises and no array is returned. *)
Lemma well_formed_files_of_two_widths_raise :
  glob dir_ragged (path_join dir_ragged "run" default_file_pattern)
    = ["run/S313_MgB2_2.txt"; "run/S313_MgB2_1.txt"] ∧
  readlines dir_ragged "run/S313_MgB2_1.txt" = Some spectrum_12 ∧
  readlines dir_ragged "run/S313_MgB2_2.txt" = Some spectrum_wide ∧
  well_formed spectrum_12 ∧ well_formed spectrum_wide ∧
  angle_of spectrum_12 = Some (Some 12) ∧ angle_of spectrum_wide = Some (Some 18) ∧
  outcome (load_ses_spectra dir_ragged "run" default_file_pattern) =
    inl (AlignmentError "y_pixel") ∧
  ¬ ∃ arr,
      outcome (load_ses_spectra dir_ragged "run" default_file_pattern) = inr arr ∧
      length (coord0 arr) = 2%nat.
Proof.
  split_and!; [reflexivity..| | |reflexivity|reflexivity|reflexivity|].
  - apply spectrum_12_well_formed.
  - apply spectrum_wide_well_formed.
  - intros (arr & Harr & _). discriminate Harr.
Qed.

Lemma kx_has_one_entry_per_file_witness :
  ∃ arr,
    outcome (load_ses_spectra dir_pair "run" default_file_pattern) = inr arr ∧
    dim0 arr = "kx" ∧
    length (coord0 arr) = 2%nat.
Proof.
  apply (kx_has_one_entry_per_file dir_pair "run" default_file_pattern);
    change (glob dir_pair (path_join dir_pair "run" default_file_pattern))
      with ["run/S313_MgB2_2.txt"; "run/S313_MgB2_1.txt"].
  - discriminate.
  - repeat apply Forall_cons_2; [| |apply Forall_nil_2].
    + exists spectrum_15. split; [reflexivity|apply spectrum_15_well_formed].
    + exists spectrum_12. split; [reflexivity|apply spectrum_12_well_formed].
  - apply (bool_decide_unpack _). exact I.
  - intros p q Hp Hq. each_file Hp; each_file Hq; reflexivity.
  - right. intros p Hp. each_file Hp; apply (bool_decide_unpack _); exact I.
Defined.

End one_slice_per_file_runs.

Section outer_join.
Context `{Float64}.

(** ** The outer join on the energy axis *)

Lemma concat_values datasets :
  Forall sliced datasets → concat (values <$> datasets) = plane <$> datasets.
Proof.
  induction 1 as [|d datasets Hd _ IH]; [done|].
  cbn. by rewrite (sliced_values d Hd), IH.
Qed.

Lemma concat_reindex idx datasets :
  Forall sliced datasets →
  concat (reindex idx <$> datasets) =
    (λ d, reindex_plane idx (energy d) (y_pixel d) (plane d)) <$> datasets.
Proof.
  induction 1 as [|d datasets Hd _ IH]; [done|].
  cbn. unfold reindex at 1. by rewrite (sliced_values d Hd), IH.
Qed.

Lemma elem_of_concat {A} (x : A) (ls : list (list A)) :
  x ∈ concat ls ↔ ∃ l, l ∈ ls ∧ x ∈ l.
Proof.
  rewrite list_elem_of_In, in_concat. split.
  - intros (l & Hl & Hx). exists l. by rewrite !list_elem_of_In.
  - intros (l & Hl & Hx). exists l. by rewrite <-!list_elem_of_In.
Qed.

(** The joined index holds exactly the energies of the arrays. *)
Lemma elem_of_joined_index datasets e :
  e ∈ joined_index datasets ↔ ∃ d, d ∈ datasets ∧ e ∈ energy d.
Proof.
  unfold joined_index. destruct (all_equal (energy <$> datasets)) eqn:Hall.
  - destruct datasets as [|d0 datasets]; simpl.
    { split; [by intros ?%elem_of_nil|]. by intros (d & ?%elem_of_nil & _). }
    split.
    + intros He. exists d0. split; [apply list_elem_of_here|done].
    + intros (d & Hd & He).
      by rewrite (proj1 (all_equal_fmap_true energy (d0 :: datasets)) Hall d0 d)
        by (done || apply list_elem_of_here).
  - rewrite merge_sort_Permutation, elem_of_remove_dups, elem_of_concat. split.
    + intros (l & (d & -> & Hd)%list_elem_of_fmap & He). eauto.
    + intros (d & Hd & He). exists (energy d). split; [|done].
      by apply list_elem_of_fmap_2.
Qed.

(** A label the old index has, once, keeps its row. *)
Lemma reindex_plane_kept idx old n pl pos j e row :
  idx !! pos = Some e → NoDup old → old !! j = Some e → pl !! j = Some row →
  reindex_plane idx old n pl !! pos = Some row.
Proof.
  intros Hpos Hnodup Hj Hrow. unfold reindex_plane.
  rewrite list_lookup_fmap, Hpos. simpl.
  assert (list_find (λ e', e' = e) old = Some (j, e)) as ->.
  { apply list_find_Some. split_and!; [done..|].
    intros j' e' Hj' Hlt ->. pose proof (NoDup_lookup _ _ _ _ Hnodup Hj Hj'). lia. }
  by rewrite Hrow.
Qed.

(** A label the old index lacks gets a row of NaN. *)
Lemma reindex_plane_filled idx old n pl pos e :
  idx !! pos = Some e → e ∉ old →
  reindex_plane idx old n pl !! pos = Some (replicate n nan).
Proof.
  intros Hpos Hnot. unfold reindex_plane.
  rewrite list_lookup_fmap, Hpos. simpl.
  assert (list_find (λ e', e' = e) old = None) as ->; [|done].
  apply list_find_None, Forall_forall. by intros e' He' ->.
Qed.

(** C7, as amended.  The per-file arrays are joined on the energy
    coordinate only.  When they have the same number of pixel columns and
    their energy columns are all equal or each free of duplicates, the
    combined array covers the union of the energy coordinates, every row of
    every file is kept under its energy, and the rows a file lacks are
    filled with NaN.  When the numbers of pixel columns differ, the
    concatenation raises and no array is returned. *)
Theorem concat_is_outer_join_on_energy os directory_path file_pattern out datasets :
  load_files os (file_list os directory_path file_pattern) [] = Run out (inr datasets) →
  datasets ≠ [] →
  ((∃ d1 d2, d1 ∈ datasets ∧ d2 ∈ datasets ∧ y_pixel d1 ≠ y_pixel d2) →
   outcome (load_ses_spectra os directory_path file_pattern) =
     inl (AlignmentError "y_pixel")) ∧
  ((∀ d1 d2, d1 ∈ datasets → d2 ∈ datasets → y_pixel d1 = y_pixel d2) →
   (∀ d1 d2, d1 ∈ datasets → d2 ∈ datasets → energy d1 = energy d2) ∨
   Forall (λ d, NoDup (energy d)) datasets →
   ∃ arr,
     outcome (load_ses_spectra os directory_path file_pattern) = inr arr ∧
     (∀ e, e ∈ energy arr ↔ ∃ d, d ∈ datasets ∧ e ∈ energy d) ∧
     (∀ k d j e row,
        datasets !! k = Some d → energy d !! j = Some e → plane d !! j = Some row →
        ∃ pos, energy arr !! pos = Some e ∧ row_at arr k pos = Some row) ∧
     (∀ k d pos e,
        datasets !! k = Some d → energy arr !! pos = Some e → e ∉ energy d →
        row_at arr k pos = Some (replicate (y_pixel arr) nan))).
Proof.
  intros Hload Hne.
  assert (glob os (path_join os directory_path file_pattern) ≠ []) as Hglob.
  { intros Hglob. apply Hne. unfold file_list in Hload.
    rewrite (proj2 (sorted_nil _) Hglob) in Hload. by inversion Hload. }
  assert (Forall sliced datasets) as Hsliced.
  { assert (outcome (load_files os (file_list os directory_path file_pattern) [])
            = inr datasets) as Hout by by rewrite Hload.
    by apply load_files_outcome in Hout as [-> ?]. }
  assert (outcome (load_ses_spectra os directory_path file_pattern) =
          outcome (combine datasets)) as ->.
  { by rewrite load_ses_spectra_found, Hload. }
  destruct datasets as [|d0 datasets]; [done|]. rewrite combine_concat. split.
  - intros (d1 & d2 & H1 & H2 & Hdiff).
    by rewrite (concat_outer_conflicting_sizes _ d1 d2).
  - intros Hpix Halign. rewrite concat_outer_aligned by done.
    eexists. split; [reflexivity|].
    unfold with_ky, row_at. cbn [energy values y_pixel].
    split_and!.
    + apply elem_of_joined_index.
    + intros k d j e row Hk Hj Hrow.
      assert (d ∈ d0 :: datasets) as Hd by by eapply list_elem_of_lookup_2.
      assert (e ∈ joined_index (d0 :: datasets)) as He.
      { apply elem_of_joined_index. exists d. split; [done|].
        by eapply list_elem_of_lookup_2. }
      unfold joined_index in *.
      destruct (all_equal (energy <$> d0 :: datasets)) eqn:Hall.
      * exists j. rewrite concat_values, list_lookup_fmap, Hk by done. simpl.
        split; [|done].
        rewrite (proj1 (all_equal_fmap_true energy (d0 :: datasets)) Hall d0 d)
          by (done || apply list_elem_of_here). done.
      * apply list_elem_of_lookup_1 in He as [pos Hpos]. exists pos.
        split; [done|].
        rewrite concat_reindex, list_lookup_fmap, Hk by done. simpl.
        destruct Halign as [Heq|Hnodup].
        { apply all_equal_fmap_true in Heq. congruence. }
        eapply reindex_plane_kept; [done| |done..].
        by eapply Forall_forall in Hnodup.
    + intros k d pos e Hk Hpos Hnot.
      assert (d ∈ d0 :: datasets) as Hd by by eapply list_elem_of_lookup_2.
      unfold joined_index in *.
      destruct (all_equal (energy <$> d0 :: datasets)) eqn:Hall.
      * exfalso. apply Hnot. simpl in Hpos.
        rewrite <-(proj1 (all_equal_fmap_true energy (d0 :: datasets)) Hall d0 d)
          by (done || apply list_elem_of_here).
        by eapply list_elem_of_lookup_2.
      * rewrite concat_reindex, list_lookup_fmap, Hk by done. simpl.
        rewrite (Hpix d0 d) by (done || apply list_elem_of_here).
        by eapply reindex_plane_filled.
Qed.

End outer_join.

Section outer_join_runs.
Local Existing Instance Sample.float64.
Import Sample.

Local Ltac each_array H :=
  repeat (apply elem_of_cons in H as [->|H]); [..|by apply elem_of_nil in H].

(** C7 as stated fails on two files of two and of three pixel columns: the
    narrower one is not padded with NaN, the concatenation raises. *)
Lemma differing_pixel_counts_are_not_padded :
  load_files dir_ragged (file_list dir_ragged "run" default_file_pattern) [] =
    Run [] (inr [slice spectrum_12 4 (Some 12); slice spectrum_wide 4 (Some 18)]) ∧
  y_pixel (slice spectrum_12 4 (Some 12)) = 2%nat ∧
  y_pixel (slice spectrum_wide 4 (Some 18)) = 3%nat ∧
  load_ses_spectra dir_ragged "run" default_file_pattern =
    raise (AlignmentError "y_pixel").
Proof. split_and!; reflexivity. Qed.

(** The two spectra of [dir_pair] share the energy 2 only: the combined
    array has the energies 1, 2, 3 and a row of NaN where a file has none. *)
Example dir_pair_joined :
  ∃ arr,
    load_ses_spectra dir_pair "run" default_file_pattern = Run [] (inr arr) ∧
    coord0 arr = [Some 12; Some 15] ∧
    energy arr = [Some 1; Some 2; Some 3] ∧
    values arr = [[[Some 10; Some 20]; [Some 30; Some 40]; [None; None]];
                  [[None; None]; [Some 11; Some 21]; [Some 31; Some 41]]].
Proof. eexists. split_and!; reflexivity. Qed.

Lemma concat_is_outer_join_on_energy_witness :
  let datasets := [slice spectrum_12 4 (Some 12); slice spectrum_15 4 (Some 15)] in
  load_files dir_pair (file_list dir_pair "run" default_file_pattern) [] =
    Run [] (inr datasets) ∧
  ∃ arr,
    outcome (load_ses_spectra dir_pair "run" default_file_pattern) = inr arr ∧
    (∀ e, e ∈ energy arr ↔ ∃ d, d ∈ datasets ∧ e ∈ energy d) ∧
    (∀ k d j e row,
       datasets !! k = Some d → energy d !! j = Some e → plane d !! j = Some row →
       ∃ pos, energy arr !! pos = Some e ∧ row_at arr k pos = Some row) ∧
    (∀ k d pos e,
       datasets !! k = Some d → energy arr !! pos = Some e → e ∉ energy d →
       row_at arr k pos = Some (replicate (y_pixel arr) nan)).
Proof.
  intros datasets. split; [reflexivity|].
  apply (proj2 (concat_is_outer_join_on_energy dir_pair "run" default_file_pattern
                  [] datasets eq_refl ltac:(discriminate))).
  - intros d1 d2 H1 H2. each_array H1; each_array H2; reflexivity.
  - right. repeat apply Forall_cons_2; [| |apply Forall_nil_2];
      apply (bool_decide_unpack _); exact I.
Defined.

End outer_join_runs.

(** * Further properties of the loader *)

Section angle_above_marker.
Context `{Float64}.

(** X1. When at least four lines lie above the first marker line, the
    angle of the file is the float on the third line above the marker when
    that line parses, else the float on the fourth line above it; when
    neither parses, the file is skipped with the warning. *)
Theorem angle_is_read_above_the_marker os file_path lines i :
  readlines os file_path = Some lines →
  first_marker lines = Some i →
  (4 ≤ i)%nat →
  match lines !! (i - 3)%nat ≫= (λ line, py_float (strip line)),
        lines !! (i - 4)%nat ≫= (λ line, py_float (strip line)) with
  | Some angle_value, _ | None, Some angle_value =>
      load_file os file_path =
        (df ← read_csv os file_path "009"%char (i + 1);
         mret (Some (DataArray_of df angle_value)))
  | None, None =>
      load_file os file_path = Run [warning os file_path] (inr None)
  end.
Proof.
  intros Hread Hi Hfour.
  pose proof (angle_lookup_above_marker lines i Hfour) as Hlookup.
  destruct (lines !! (i - 3)%nat ≫= _) as [a|].
  - by apply (load_file_angle _ _ lines i).
  - destruct (lines !! (i - 4)%nat ≫= _) as [a|].
    + by apply (load_file_angle _ _ lines i).
    + by apply (load_file_no_angle _ _ lines i).
Qed.

End angle_above_marker.

Section output.
Context `{Float64}.

(** ** What is printed *)

Lemma stdout_parse_rows w body : stdout (parse_rows w body) = [].
Proof.
  induction body as [|fields body IH]; [done|]. cbn [parse_rows].
  unfold parse_row. case_bool_decide; [done|].
  rewrite bind_mret. destruct (parse_rows w body) as [out [e|rs]]; by simplify_eq/=.
Qed.

Lemma stdout_read_csv os file_path sep skiprows :
  stdout (read_csv os file_path sep skiprows) = [].
Proof.
  unfold read_csv. destruct (readlines os file_path) as [lines|]; [|done].
  destruct (_ <$> _) as [|first body]; [done|].
  pose proof (stdout_parse_rows (length first) (first :: body)) as Hout.
  destruct (parse_rows _ _) as [out [e|rs]]; by simplify_eq/=.
Qed.

(** The loop body prints the warning of the file and nothing else, whether
    it returns or raises. *)
Lemma stdout_load_file os file_path :
  stdout (load_file os file_path) = option_list (warning_of os file_path).
Proof.
  unfold warning_of.
  destruct (readlines os file_path) as [lines|] eqn:Hread;
    [|by rewrite load_file_unreadable].
  cbn [mbind option_bind].
  destruct (first_marker lines) as [i|] eqn:Hi; cbn [mbind option_bind];
    [|by rewrite (load_file_no_marker _ _ lines)].
  destruct (angle_lookup lines i) as [a|] eqn:Ha;
    [|by rewrite (load_file_no_angle _ _ lines i)].
  rewrite (load_file_angle _ _ lines i a) by done.
  pose proof (stdout_read_csv os file_path "009"%char (i + 1)) as Hout.
  destruct (read_csv _ _ _ _) as [out [e|df]]; by simplify_eq/=.
Qed.

Lemma stdout_load_files os files datasets :
  stdout (load_files os files datasets) `prefix_of` omap (warning_of os) files ∧
  (∀ datasets', outcome (load_files os files datasets) = inr datasets' →
     stdout (load_files os files datasets) = omap (warning_of os) files).
Proof.
  revert datasets. induction files as [|p files IH]; intros datasets; [done|].
  cbn [load_files omap list_omap].
  pose proof (stdout_load_file os p) as Hp.
  destruct (load_file os p) as [out [e|d]]; simpl in Hp; subst out.
  - rewrite bind_inl. cbn [stdout outcome]. split; [|done].
    destruct (warning_of os p); [|apply prefix_nil].
    apply prefix_cons, prefix_nil.
  - rewrite bind_inr. cbn [stdout outcome].
    destruct (IH match d with Some a => datasets ++ [a] | None => datasets end)
      as [Hpre Heq].
    destruct (warning_of os p) as [w|]; simpl.
    + split; [by apply prefix_cons|]. intros ds' Hds'. f_equal. by eapply Heq.
    + done.
Qed.

Lemma stdout_combine datasets : stdout (combine datasets) = [].
Proof.
  destruct datasets as [|d0 datasets]; [done|]. rewrite combine_concat.
  unfold concat_outer. repeat case_match; done.
Qed.

(** X3. The loader prints nothing but warnings: what it has printed is
    always a prefix of the warnings of the matched files taken in sorted
    order, a warning being due for a file with a marker line and no
    parseable angle; when the loop over the files completes, it is exactly
    that list. *)
Theorem printed_lines_are_the_warnings os directory_path file_pattern :
  stdout (load_ses_spectra os directory_path file_pattern) `prefix_of`
    omap (warning_of os) (file_list os directory_path file_pattern) ∧
  (∀ datasets,
     outcome (load_files os (file_list os directory_path file_pattern) [])
       = inr datasets →
     stdout (load_ses_spectra os directory_path file_pattern) =
       omap (warning_of os) (file_list os directory_path file_pattern)).
Proof.
  destruct (decide (glob os (path_join os directory_path file_pattern) = []))
    as [Hglob|Hglob].
  { unfold load_ses_spectra, file_list. rewrite Hglob. by split. }
  rewrite load_ses_spectra_found by done.
  destruct (stdout_load_files os (file_list os directory_path file_pattern) [])
    as [Hpre Heq].
  destruct (load_files os _ []) as [out [e|ds]] eqn:Hloop; cbn [stdout outcome] in *.
  - rewrite bind_inl. by split.
  - rewrite bind_inr, stdout_combine, app_nil_r. cbn [stdout].
    rewrite (Heq ds) by done. by split.
Qed.

End output.

Section kx_axis.
Context `{Float64}.

(** ** The kx axis and the shape of the result *)

(** The angle coordinate of the array of a file is the angle of the file. *)
Lemma coord0_file_slice os file_path :
  from_option coord0 [] (file_slice os file_path) =
  option_list (angle_of (contents os file_path)).
Proof.
  unfold file_slice, angle_of, contents.
  destruct (readlines os file_path) as [lines|]; [|reflexivity].
  change (default [] (Some lines)) with lines. cbn [mbind option_bind].
  destruct (first_marker lines) as [i|]; [|reflexivity].
  cbn [mbind option_bind]. destruct (angle_lookup lines i); reflexivity.
Qed.

Lemma concat_coord0 os files :
  concat (coord0 <$> omap (file_slice os) files) =
  omap (λ file_path, angle_of (contents os file_path)) files.
Proof.
  induction files as [|p files IH]; [done|]. cbn [omap list_omap].
  pose proof (coord0_file_slice os p) as Hp.
  destruct (file_slice os p) as [d|]; simpl in Hp.
  - cbn. rewrite IH, Hp. by destruct (angle_of (contents os p)).
  - destruct (angle_of (contents os p)); simplify_eq/=. apply IH.
Qed.

(** X2. Whenever the loader returns an array, its first dimension is named
    kx and its kx coordinate lists the angles of the matched files that
    were not skipped, one entry per file, in the sorted order of the
    paths, whatever the order in which glob gave them. *)
Theorem kx_lists_the_angles_in_path_order os directory_path file_pattern arr :
  outcome (load_ses_spectra os directory_path file_pattern) = inr arr →
  dim0 arr = "kx" ∧
  coord0 arr =
    omap (λ file_path, angle_of (contents os file_path))
         (file_list os directory_path file_pattern) ∧
  Sorted String.le (file_list os directory_path file_pattern) ∧
  file_list os directory_path file_pattern ≡ₚ
    glob os (path_join os directory_path file_pattern).
Proof.
  intros (datasets & c & Hds & Hc & ->)%load_ses_spectra_returns.
  apply load_files_outcome in Hds as [-> Hsliced]. cbn [app] in *.
  apply concat_outer_returns in Hc as (d0 & datasets' & Hds & _ & ->).
  unfold with_ky. cbn [dim0 coord0]. split_and!.
  - rewrite Hds in Hsliced. apply Forall_cons in Hsliced as [Hd0 _].
    by rewrite (sliced_dim0 d0 Hd0).
  - apply concat_coord0.
  - apply (Sorted_merge_sort String.le).
  - apply merge_sort_Permutation.
Qed.

Lemma length_reindex_plane idx old n pl :
  length (reindex_plane idx old n pl) = length idx.
Proof. unfold reindex_plane. by rewrite length_fmap. Qed.

(** X8. Whenever the loader returns an array, its values fill the box
    kx x energy x y_pixel: one plane for every kx entry, in every plane one
    row for every energy, in every row one value for every pixel column. *)
Theorem result_is_a_full_box os directory_path file_pattern arr :
  outcome (load_ses_spectra os directory_path file_pattern) = inr arr →
  length (values arr) = length (coord0 arr) ∧
  Forall (λ pl, length pl = length (energy arr) ∧
                Forall (λ row : list f64, length row = y_pixel arr) pl)
         (values arr).
Proof.
  intros Harr.
  pose proof (ky_box_rows os directory_path file_pattern arr Harr) as Hrows.
  apply load_ses_spectra_returns in Harr as (datasets & c & Hds & Hc & ->).
  apply load_files_outcome in Hds as [-> Hsliced]. cbn [app] in *.
  set (datasets := omap (file_slice os) (file_list os directory_path file_pattern))
    in *.
  apply concat_outer_returns in Hc as (d0 & datasets' & Hds & Hpix & ->).
  unfold with_ky in *. cbn [values coord0 energy y_pixel] in *.
  assert (length (concat (coord0 <$> datasets)) = length datasets) as Hkx.
  { apply concat_singletons. eapply Forall_impl; [exact Hsliced|].
    apply sliced_coord0. }
  unfold joined_index in *.
  destruct (all_equal (energy <$> datasets)) eqn:Hall.
  - rewrite concat_values in * by done. split.
    + by rewrite length_fmap, Hkx.
    + apply Forall_forall. intros pl Hpl. split; [|by eapply Forall_forall in Hrows].
      apply list_elem_of_fmap in Hpl as (d & -> & Hd).
      rewrite sliced_plane_length by by eapply Forall_forall in Hsliced.
      rewrite Hds. cbn. f_equal.
      apply (proj1 (all_equal_fmap_true energy datasets) Hall); [done|].
      rewrite Hds. apply list_elem_of_here.
  - rewrite concat_reindex in * by done. split.
    + by rewrite length_fmap, Hkx.
    + apply Forall_forall. intros pl Hpl. split; [|by eapply Forall_forall in Hrows].
      apply list_elem_of_fmap in Hpl as (d & -> & Hd).
      apply length_reindex_plane.
Qed.

End kx_axis.

Section file_order.
Context `{Float64}.

(** ** The order of the files *)

Lemma sorted_Permutation l1 l2 : l1 ≡ₚ l2 → sorted l1 = sorted l2.
Proof.
  intros Hperm. unfold sorted.
  apply (StronglySorted_unique String.le).
  - apply StronglySorted_merge_sort; apply _.
  - apply StronglySorted_merge_sort; apply _.
  - by rewrite !merge_sort_Permutation.
Qed.

Lemma scan_header_with_glob os g file_path lines i todo :
  scan_header (with_glob os g) file_path lines i todo =
  scan_header os file_path lines i todo.
Proof.
  revert i. induction todo as [|line todo IH]; intros i; [done|].
  cbn [scan_header]. by rewrite IH.
Qed.

Lemma load_file_with_glob os g file_path :
  load_file (with_glob os g) file_path = load_file os file_path.
Proof.
  unfold load_file, read_csv. cbn [readlines with_glob].
  destruct (readlines os file_path) as [lines|]; [|done].
  by rewrite scan_header_with_glob.
Qed.

Lemma load_files_with_glob os g files datasets :
  load_files (with_glob os g) files datasets = load_files os files datasets.
Proof.
  revert datasets. induction files as [|p files IH]; intros datasets; [done|].
  cbn [load_files]. rewrite load_file_with_glob. apply bind_ext. intros d. apply IH.
Qed.

(** X4. The order in which glob lists the matched paths has no effect: an
    operating system that lists the same paths in another order gives the
    same printed lines and the same result. *)
Theorem glob_order_is_irrelevant os g directory_path file_pattern :
  g (path_join os directory_path file_pattern) ≡ₚ
    glob os (path_join os directory_path file_pattern) →
  load_ses_spectra (with_glob os g) directory_path file_pattern =
  load_ses_spectra os directory_path file_pattern.
Proof.
  intros Hperm. unfold load_ses_spectra. cbn [glob path_join with_glob].
  rewrite (sorted_Permutation _ _ Hperm).
  destruct (sorted _) as [|p files]; [done|].
  by rewrite load_files_with_glob.
Qed.

(** ** Files that make the loader raise *)

Lemma load_file_raises os file_path e :
  outcome (load_file os file_path) = inl e → load_file os file_path = raise e.
Proof.
  intros Hraise. pose proof (stdout_load_file os file_path) as Hout.
  assert (warning_of os file_path = None) as Hnone.
  { unfold warning_of.
    destruct (readlines os file_path) as [lines|] eqn:Hread; [|done].
    cbn [mbind option_bind].
    destruct (first_marker lines) as [i|] eqn:Hi; [|done].
    cbn [mbind option_bind].
    destruct (angle_lookup lines i) as [a|] eqn:Ha; [done|].
    by rewrite (load_file_no_angle _ _ lines i) in Hraise. }
  rewrite Hnone in Hout.
  destruct (load_file os file_path) as [out [e'|d]]; by simplify_eq/=.
Qed.

(** X5. A file whose processing raises ends the whole call with that
    exception: the arrays of the files before it are dropped, the files
    after it in sorted order are not looked at, and only the warnings of
    the files before it have been printed. *)
Theorem failing_file_aborts_the_call
    os directory_path file_pattern before file_path after datasets e :
  file_list os directory_path file_pattern = before ++ file_path :: after →
  outcome (load_files os before []) = inr datasets →
  outcome (load_file os file_path) = inl e →
  load_ses_spectra os directory_path file_pattern =
    Run (omap (warning_of os) before) (inl e).
Proof.
  intros Hlist Hbefore Hfile.
  assert (glob os (path_join os directory_path file_pattern) ≠ []) as Hglob.
  { intros Hglob. unfold file_list in Hlist.
    rewrite (proj2 (sorted_nil _) Hglob) in Hlist. by destruct before. }
  rewrite load_ses_spectra_found, Hlist, load_files_app by done.
  pose proof (proj2 (stdout_load_files os before []) datasets Hbefore) as Hout.
  cbn [load_files]. rewrite (load_file_raises os file_path e Hfile).
  destruct (load_files os before []) as [out [e'|ds]]; simplify_eq/=.
  unfold mbind, run_bind, raise; simpl. by rewrite app_nil_r.
Qed.

End file_order.

Section table_errors.
Context `{Float64}.

Lemma parse_rows_wide w pre fields post :
  Forall (λ fs : list string, (length fs ≤ w)%nat) pre →
  (w < length fields)%nat →
  parse_rows w (pre ++ fields :: post) = raise (ParserError (length fields)).
Proof.
  intros Hpre Hwide. induction Hpre as [|fs pre Hfs _ IH]; cbn [parse_rows app].
  - unfold parse_row. by rewrite bool_decide_eq_true_2 by done.
  - unfold parse_row at 1. rewrite bool_decide_eq_false_2 by lia.
    by rewrite bind_mret, IH.
Qed.

(** X6. A table that cannot be read is not a reason to skip the file: for
    a file with a marker line and a parseable angle, the loop body raises
    EmptyDataError when nothing but blank lines follows the marker, and
    ParserError as soon as a row has more fields than the first row. *)
Theorem unreadable_table_raises os file_path lines i angle_value :
  readlines os file_path = Some lines →
  first_marker lines = Some i →
  angle_lookup lines i = Some angle_value →
  (body_rows lines i = [] → load_file os file_path = raise EmptyDataError) ∧
  (∀ pre fields post,
     body_rows lines i = pre ++ fields :: post →
     Forall (λ fs, (length fs ≤ table_width (body_rows lines i))%nat) pre →
     (table_width (body_rows lines i) < length fields)%nat →
     load_file os file_path = raise (ParserError (length fields))).
Proof.
  intros Hread Hi Ha.
  rewrite (load_file_angle _ _ lines i angle_value) by done.
  rewrite (read_csv_body _ _ lines) by done. split.
  - by intros ->.
  - intros pre fields post Hbody Hpre Hwide. unfold table_width in *.
    destruct (body_rows lines i) as [|first body]; [by destruct pre|].
    change (default [] (head (first :: body))) with first in *.
    rewrite Hbody, parse_rows_wide by done. done.
Qed.

End table_errors.

Section stacking.
Context `{Float64}.

(** ** Files that share their energy column *)

Lemma file_slice_well_formed os file_path lines :
  readlines os file_path = Some lines →
  well_formed lines →
  ∃ d,
    file_slice os file_path = Some d ∧ sliced d ∧
    plane d = intensities (contents os file_path) ∧
    energy d = energy_column (contents os file_path) ∧
    y_pixel d = pixel_columns (contents os file_path).
Proof.
  intros Hread (i & a & Hi & Ha & Hok). exists (slice lines i a).
  unfold file_slice, intensities, energy_column, pixel_columns, table_of, contents.
  rewrite Hread. cbn [mbind option_bind default from_option id].
  rewrite Hi. cbn [mbind option_bind]. rewrite Ha.
  split_and!; [done| |done..]. by exists lines, i, a.
Qed.

(** X7. When every matched file is well-formed and all have the same
    number of pixel columns and the same energy column, the loader prints
    nothing and returns the tables stacked in the sorted order of the
    paths: kx lists the angles, the energy axis is the common energy column
    as the files have it, and plane k holds the intensities of file k. *)
Theorem equal_energy_columns_are_stacked os directory_path file_pattern :
  let files := file_list os directory_path file_pattern in
  glob os (path_join os directory_path file_pattern) ≠ [] →
  Forall (λ file_path, ∃ lines,
            readlines os file_path = Some lines ∧ well_formed lines) files →
  (∀ p q, p ∈ files → q ∈ files →
     pixel_columns (contents os p) = pixel_columns (contents os q)) →
  (∀ p q, p ∈ files → q ∈ files →
     energy_column (contents os p) = energy_column (contents os q)) →
  ∃ arr,
    load_ses_spectra os directory_path file_pattern = Run [] (inr arr) ∧
    dim0 arr = "kx" ∧
    coord0 arr = omap (λ file_path, angle_of (contents os file_path)) files ∧
    (∀ p, p ∈ files →
       energy arr = energy_column (contents os p) ∧
       y_pixel arr = pixel_columns (contents os p)) ∧
    values arr = (λ file_path, intensities (contents os file_path)) <$> files.
Proof.
  intros files Hglob Hwf Hpix Henergy.
  rewrite load_ses_spectra_found by done. fold files.
  destruct (load_files_well_formed os files [] Hwf) as [-> Hlen]. cbn [app].
  rewrite bind_mret.
  assert (Forall2 (λ p d, sliced d ∧ plane d = intensities (contents os p) ∧
                          energy d = energy_column (contents os p) ∧
                          y_pixel d = pixel_columns (contents os p))
            files (omap (file_slice os) files)) as Hslices.
  { clear Hlen Hpix Henergy. induction Hwf as [|p ps (lines & Hread & Hlines) _ IH];
      [constructor|].
    destruct (file_slice_well_formed os p lines Hread Hlines) as (d & Hd & Hrest).
    cbn [omap list_omap]. rewrite Hd. by constructor. }
  pose proof (concat_coord0 os files) as Hkx.
  assert (files ≠ []) as Hne.
  { unfold files, file_list. by rewrite sorted_nil. }
  clearbody files.
  destruct Hslices as [|p0 d0 ps ds (Hsl0 & Hpl0 & He0 & Hy0) Hrest]; [done|].
  assert (∀ d, d ∈ d0 :: ds → ∃ p, p ∈ p0 :: ps ∧ sliced d ∧
             energy d = energy_column (contents os p) ∧
             y_pixel d = pixel_columns (contents os p)) as Hd.
  { intros d Hin. apply list_elem_of_lookup_1 in Hin as [k Hk].
    assert (Forall2 (λ p d, sliced d ∧ plane d = intensities (contents os p) ∧
                            energy d = energy_column (contents os p) ∧
                            y_pixel d = pixel_columns (contents os p))
              (p0 :: ps) (d0 :: ds)) as Hall by by constructor.
    destruct (Forall2_lookup_r _ _ _ _ _ Hall Hk) as (p & Hp & Hsl & _ & He & Hy).
    exists p. split; [by eapply list_elem_of_lookup_2|done]. }
  assert (all_equal (energy <$> d0 :: ds) = true) as Hall.
  { apply all_equal_fmap_true.
    intros d1 d2 (p1 & ? & _ & -> & _)%Hd (p2 & ? & _ & -> & _)%Hd.
    by apply Henergy. }
  rewrite combine_concat, concat_outer_aligned, bind_mret.
  - eexists. split; [reflexivity|].
    unfold with_ky, joined_index. cbn [dim0 coord0 energy y_pixel values].
    rewrite Hall, (sliced_dim0 d0 Hsl0), Hkx. split_and!; [done..| |].
    + intros p Hp. cbn. rewrite He0, Hy0.
      split; [apply Henergy|apply Hpix]; (done || apply list_elem_of_here).
    + rewrite concat_values.
      * cbn. rewrite Hpl0. f_equal. clear -Hrest.
        induction Hrest as [|p d ps ds (_ & Hpl & _) _ IH]; [done|].
        cbn. by rewrite Hpl, IH.
      * apply Forall_forall. by intros d (p & _ & Hsl & _)%Hd.
  - intros d1 d2 (p1 & ? & _ & _ & ->)%Hd (p2 & ? & _ & _ & ->)%Hd.
    by apply Hpix.
  - left. intros d1 d2 (p1 & ? & _ & -> & _)%Hd (p2 & ? & _ & -> & _)%Hd.
    by apply Henergy.
Qed.

End stacking.

(** ** The samples of linspace *)

Lemma linspace_first start stop num :
  (1 ≤ num)%nat → linspace start stop num !! 0%nat = Some start.
Proof.
  intros Hnum. rewrite linspace_lookup by lia. f_equal.
  change (Qc_of_Z (Z.of_nat 0)) with (Qc_of_Z 0). rewrite Z2Qc_inj_0.
  case_decide; ring.
Qed.

Lemma linspace_last start stop num :
  (2 ≤ num)%nat → linspace start stop num !! (num - 1)%nat = Some stop.
Proof.
  intros Hnum. rewrite linspace_lookup by lia. f_equal.
  rewrite decide_False by lia. field.
  rewrite <-Z2Qc_inj_0. intros Heq%Z2Qc_inj. lia.
Qed.

Lemma linspace_increasing start stop num i j x y :
  (start < stop)%Qc → (i < j)%nat →
  linspace start stop num !! i = Some x →
  linspace start stop num !! j = Some y →
  (x < y)%Qc.
Proof.
  intros Hlt Hij Hi Hj.
  assert (j < num)%nat as Hjn.
  { apply lookup_lt_Some in Hj. by rewrite length_linspace in Hj. }
  rewrite linspace_lookup in Hi, Hj by lia.
  rewrite decide_False in Hi, Hj by lia. simplify_eq.
  apply Qcplus_lt_mono_l, Qcmult_lt_mono_pos_r.
  - unfold Qcdiv. apply Qcmult_pos_pos.
    + apply (Qcplus_lt_mono_r _ _ start).
      by replace (0 + start)%Qc with start by ring;
         replace (stop - start + start)%Qc with stop by ring.
    + apply Qcinv_pos. rewrite <-Z2Qc_inj_0.
      apply (proj1 (Z2Qc_inj_lt _ _)). lia.
  - apply (proj1 (Z2Qc_inj_lt _ _)). lia.
Qed.

Section ky_axis.
Context `{Float64}.

(** X9. Whenever the loader returns an array, its ky coordinate has one
    value per pixel column, strictly increasing from column to column; with
    two pixel columns or more it starts at -1 and ends at 1; with a single
    pixel column it is -1 alone. *)
Theorem ky_increases_from_minus_one_to_one os directory_path file_pattern arr :
  outcome (load_ses_spectra os directory_path file_pattern) = inr arr →
  ∃ ky_values,
    ky arr = Some ky_values ∧
    length ky_values = y_pixel arr ∧
    (y_pixel arr = 1%nat → ky_values = [(- 1)%Qc]) ∧
    ((2 ≤ y_pixel arr)%nat →
       head ky_values = Some (- 1)%Qc ∧ last ky_values = Some 1%Qc) ∧
    (∀ i j x y, (i < j)%nat →
       ky_values !! i = Some x → ky_values !! j = Some y → (x < y)%Qc).
Proof.
  intros (datasets & c & _ & _ & ->)%load_ses_spectra_returns.
  exists (linspace (- 1)%Qc 1%Qc (y_pixel c)). unfold with_ky. cbn [ky y_pixel].
  split_and!.
  - done.
  - apply length_linspace.
  - intros ->. apply list_eq. intros [|k].
    + by rewrite linspace_first.
    + rewrite lookup_ge_None_2; [done|]. rewrite length_linspace. lia.
  - intros Hn. split.
    + rewrite head_lookup. apply linspace_first. lia.
    + rewrite last_lookup, length_linspace.
      replace (pred (y_pixel c)) with (y_pixel c - 1)%nat by lia.
      by apply linspace_last.
  - intros i j x y. by apply linspace_increasing.
Qed.

End ky_axis.

Section script_runs.
Context `{Float64}.
Variable repr : DataArray → string.
Variable library_message : exn → string.

(** ** The script *)

Lemma bind_outcome_inl {A B} (m : run A) (f : A → run B) e :
  outcome (m ≫= f) = inl e →
  outcome m = inl e ∨ ∃ x, outcome m = inr x ∧ outcome (f x) = inl e.
Proof.
  destruct m as [out [e'|x]]; [rewrite bind_inl; intros [= ->]; by left|].
  rewrite bind_inr. cbn [outcome]. eauto.
Qed.

Lemma parse_rows_raises w body e :
  outcome (parse_rows w body) = inl e → ∃ n, e = ParserError n.
Proof.
  induction body as [|fields body IH]; [done|]. cbn [parse_rows].
  intros [Hrow|(r & _ & Hrest)]%bind_outcome_inl.
  - unfold parse_row in Hrow. case_bool_decide; simplify_eq/=. eauto.
  - apply bind_outcome_inl in Hrest as [Hrest|(rs & _ & [=])]. by apply IH.
Qed.

(** The loop body raises OSError only for a file that cannot be opened;
    whatever else it raises is caught by the script. *)
Lemma load_file_raises_caught os file_path e :
  outcome (load_file os file_path) = inl e →
  is_caught e = true ∨ readlines os file_path = None.
Proof.
  intros Hraise.
  destruct (readlines os file_path) as [lines|] eqn:Hread; [left|by right].
  destruct (first_marker lines) as [i|] eqn:Hi;
    [|by rewrite (load_file_no_marker _ _ lines) in Hraise].
  destruct (angle_lookup lines i) as [a|] eqn:Ha;
    [|by rewrite (load_file_no_angle _ _ lines i) in Hraise].
  rewrite (load_file_angle _ _ lines i a) in Hraise by done.
  apply bind_outcome_inl in Hraise as [Hraise|(df & _ & [=])].
  rewrite (read_csv_body _ _ lines) in Hraise by done.
  destruct (body_rows lines i) as [|first body]; [by simplify_eq/=|].
  apply bind_outcome_inl in Hraise as [Hraise|(rs & _ & [=])].
  by apply parse_rows_raises in Hraise as [n ->].
Qed.

Lemma load_files_raises os files datasets e :
  outcome (load_files os files datasets) = inl e →
  ∃ file_path, file_path ∈ files ∧ outcome (load_file os file_path) = inl e.
Proof.
  revert datasets. induction files as [|p files IH]; intros datasets; [done|].
  cbn [load_files]. destruct (load_file os p) as [out [e'|d]] eqn:Hp.
  - intros [= <-]. exists p. split; [apply list_elem_of_here|by rewrite Hp].
  - rewrite bind_inr. cbn [outcome]. intros (q & Hq & Hraise)%IH.
    exists q. split; [by apply list_elem_of_further|done].
Qed.

Lemma combine_raises_caught datasets e :
  outcome (combine datasets) = inl e → is_caught e = true.
Proof.
  destruct datasets as [|d0 datasets]; [by intros [= <-]|].
  rewrite combine_concat. unfold concat_outer.
  repeat case_match; by intros [= <-].
Qed.

Lemma load_ses_spectra_raises_caught os directory_path file_pattern e :
  outcome (load_ses_spectra os directory_path file_pattern) = inl e →
  is_caught e = true ∨
  ∃ file_path,
    file_path ∈ glob os (path_join os directory_path file_pattern) ∧
    readlines os file_path = None.
Proof.
  intros Hraise.
  destruct (decide (glob os (path_join os directory_path file_pattern) = []))
    as [Hglob|Hglob].
  { rewrite load_ses_spectra_no_files in Hraise by done. left. by simplify_eq/=. }
  rewrite load_ses_spectra_found in Hraise by done.
  destruct (load_files os _ []) as [out [e'|ds]] eqn:Hloop.
  - simplify_eq/=.
    assert (outcome (load_files os (file_list os directory_path file_pattern) [])
            = inl e) as Hout by by rewrite Hloop.
    apply load_files_raises in Hout as (p & Hp & Hfile).
    apply load_file_raises_caught in Hfile as [?|Hread]; [by left|right].
    exists p. split; [|done].
    unfold file_list, sorted in Hp. by rewrite merge_sort_Permutation in Hp.
  - rewrite bind_inr in Hraise. cbn [outcome] in Hraise.
    left. by eapply combine_raises_caught.
Qed.

(** X10. When every matched file of the data folder can be opened, the
    script ends normally whatever the loader does: after the lines of the
    loader it prints the success line and the array when the loader
    returns, and the line "Error: " followed by the message when the loader
    raises. *)
Theorem script_ends_normally os :
  Forall (λ file_path, is_Some (readlines os file_path))
         (glob os (path_join os data_folder default_file_pattern)) →
  outcome (main repr library_message os) = inr tt ∧
  stdout (main repr library_message os) =
    stdout (load_ses_spectra os data_folder default_file_pattern) ++
    match outcome (load_ses_spectra os data_folder default_file_pattern) with
    | inr arpes_data =>
        ["Successfully created the combined ARPES dataset:"; repr arpes_data]
    | inl e => ["Error: " +:+ str_exn library_message e]
    end.
Proof.
  intros Hopen. unfold main, try_except.
  pose proof (load_ses_spectra_raises_caught os data_folder default_file_pattern)
    as Hcaught.
  destruct (load_ses_spectra os data_folder default_file_pattern)
    as [out [e|arr]].
  - rewrite bind_inl. cbn [outcome stdout].
    destruct (Hcaught e eq_refl) as [->|(p & Hp & Hnone)]; [done|].
    apply (proj1 (Forall_forall _ _) Hopen) in Hp as [lines Hlines]. congruence.
  - rewrite bind_inr. cbn [outcome stdout]. done.
Qed.

(** X11. When nothing in the data folder matches the default pattern, the
    script prints one line, the message of the missing-files error after
    "Error: ", and ends normally. *)
Theorem script_reports_missing_files os :
  glob os (path_join os data_folder default_file_pattern) = [] →
  main repr library_message os =
    Run ["Error: No files found in the directory: "
         +:+ data_folder +:+ " with pattern " +:+ default_file_pattern]
        (inr tt).
Proof.
  intros Hglob. unfold main, try_except, load_ses_spectra. by rewrite Hglob.
Qed.

End script_runs.

(** ** The marker line *)

Lemma prefix_app sub s :
  String.prefix sub s = true ↔ ∃ post, s = sub +:+ post.
Proof.
  revert s. induction sub as [|c sub IH]; intros s; simpl.
  - split; [intros _; exists s; reflexivity|]. intros _. by destruct s.
  - destruct s as [|c' s]; simpl.
    + split; [done|]. intros (post & Hpost). discriminate Hpost.
    + destruct (ascii_dec c c') as [->|Hne].
      * rewrite IH. split; intros (post & Hpost); exists post.
        -- rewrite Hpost. reflexivity.
        -- change (String c' s = String c' (sub +:+ post)) in Hpost.
           by injection Hpost.
      * split; [done|]. intros (post & Hpost).
        change (String c' s = String c (sub +:+ post)) in Hpost.
        injection Hpost as -> _. done.
Qed.

(** [contains sub s] holds exactly when [sub] occurs somewhere in [s]. *)
Lemma contains_app sub s :
  contains sub s = true ↔ ∃ pre post, s = pre +:+ sub +:+ post.
Proof.
  induction s as [|c s IH]; cbn [contains].
  - rewrite orb_false_r, prefix_app. split.
    + intros (post & Hpost). exists EmptyString, post. exact Hpost.
    + intros ([|c pre] & post & Hpost); [by exists post|discriminate Hpost].
  - rewrite orb_true_iff, prefix_app, IH. split.
    + intros [(post & Hpost)|(pre & post & Hpost)].
      * exists EmptyString, post. exact Hpost.
      * exists (String c pre), post. rewrite Hpost. reflexivity.
    + intros ([|c' pre] & post & Hpost).
      * left. exists post. exact Hpost.
      * right. exists pre, post.
        change (String c s = String c' (pre +:+ sub +:+ post)) in Hpost.
        by injection Hpost.
Qed.

Section marker_line.
Context `{Float64}.

(** The marker line of a file is its first line in which the text
    [[Data]] occurs anywhere, with or without other text around it. *)
Lemma marker_line_is_the_first_occurrence lines i :
  first_marker lines = Some i ↔
  ∃ line,
    lines !! i = Some line ∧
    (∃ pre post, line = pre +:+ "[Data]" +:+ post) ∧
    ∀ j line', lines !! j = Some line' → (j < i)%nat →
      ¬ ∃ pre post, line' = pre +:+ "[Data]" +:+ post.
Proof.
  rewrite first_marker_Some. unfold marker. split.
  - intros (line & Hi & Hc & Hbefore). exists line. split_and!; [done| |].
    + by apply contains_app.
    + intros j line' Hj Hlt Hocc%contains_app.
      by rewrite (Hbefore j line' Hj Hlt) in Hocc.
  - intros (line & Hi & Hc & Hbefore). exists line. split_and!; [done| |].
    + by apply contains_app.
    + intros j line' Hj Hlt. apply not_true_is_false.
      intros Hocc%contains_app. by eapply Hbefore.
Qed.

(** X12. The header scan stops at the first line of the file in which the
    text [[Data]] occurs anywhere, with or without other text around it:
    with [above] the lines before that line, none of which holds the text,
    the scan leaves [data_start_line] at [len(above) + 1] and looks the
    angle up from index [len(above)], so the loop body reads the table from
    the line after that one (or skips the file with the warning), whatever
    the lines [below] hold, further lines with the marker included; and
    with four lines or more above the marker line, the outcome of the scan
    does not depend on the lines below at all. *)
Theorem header_scan_stops_at_the_first_occurrence os file_path above line below :
  readlines os file_path = Some (above ++ line :: below) →
  Forall (λ line', ¬ ∃ pre post, line' = pre +:+ "[Data]" +:+ post) above →
  (∃ pre post, line = pre +:+ "[Data]" +:+ post) →
  scan_header os file_path (above ++ line :: below) 0 (above ++ line :: below) =
    Run (match angle_lookup (above ++ line :: below) (length above) with
         | Some _ => []
         | None => [warning os file_path]
         end)
        (inr (Some (length above + 1)%nat,
              angle_lookup (above ++ line :: below) (length above))) ∧
  match angle_lookup (above ++ line :: below) (length above) with
  | Some angle_value =>
      load_file os file_path =
        (df ← read_csv os file_path "009"%char (length above + 1);
         mret (Some (DataArray_of df angle_value)))
  | None => load_file os file_path = Run [warning os file_path] (inr None)
  end ∧
  ((4 ≤ length above)%nat →
   ∀ below',
     scan_header os file_path (above ++ line :: below') 0 (above ++ line :: below') =
     scan_header os file_path (above ++ line :: below) 0 (above ++ line :: below)).
Proof.
  intros Hread Habove Hline.
  assert (∀ rest, first_marker (above ++ line :: rest) = Some (length above))
    as Hfirst.
  { intros rest. apply marker_line_is_the_first_occurrence. exists line. split_and!.
    - by rewrite lookup_app_r, Nat.sub_diag by lia.
    - done.
    - intros j line' Hj Hlt. rewrite lookup_app_l in Hj by done.
      by apply (proj1 (Forall_lookup _ _) Habove j line'). }
  assert (∀ rest,
            scan_header os file_path (above ++ line :: rest) 0 (above ++ line :: rest) =
            Run (match angle_lookup (above ++ line :: rest) (length above) with
                 | Some _ => []
                 | None => [warning os file_path]
                 end)
                (inr (Some (length above + 1)%nat,
                      angle_lookup (above ++ line :: rest) (length above))))
    as Hscan.
  { intros rest.
    by rewrite (scan_header_marker _ _ _ 0 _ (length above)) by apply Hfirst. }
  split_and!.
  - apply Hscan.
  - destruct (angle_lookup _ _) as [a|] eqn:Ha.
    + by apply (load_file_angle _ _ (above ++ line :: below) (length above)).
    + by apply (load_file_no_angle _ _ (above ++ line :: below) (length above)).
  - intros Hfour below'. rewrite !Hscan.
    rewrite !angle_lookup_above_marker by done.
    by rewrite !lookup_app_l by lia.
Qed.

End marker_line.

Section energy_axis.
Context `{Float64}.

(** ** The energy axis of files that differ *)

(** The energy axis of the array of a file is the energy column of the
    file. *)
Lemma energy_file_slice os file_path d :
  file_slice os file_path = Some d →
  energy d = energy_column (contents os file_path).
Proof.
  unfold file_slice, energy_column, table_of, contents.
  destruct (readlines os file_path) as [lines|]; [|done].
  change (default [] (Some lines)) with lines. cbn [mbind option_bind].
  destruct (first_marker lines) as [i|]; [|done]. cbn [mbind option_bind].
  destruct (angle_lookup lines i) as [a|]; [|done]. by intros [= <-].
Qed.

(** X13. When the loader returns although two files differ in their
    energy columns, no file has an energy twice, and the energy axis of
    the result lists every energy of every file that was not skipped, and
    nothing else, each once; it is sorted by the order of the labels when
    that order is total. *)
Theorem differing_energy_columns_are_merged
    os directory_path file_pattern datasets arr :
  outcome (load_files os (file_list os directory_path file_pattern) []) = inr datasets →
  outcome (load_ses_spectra os directory_path file_pattern) = inr arr →
  (∃ d1 d2, d1 ∈ datasets ∧ d2 ∈ datasets ∧ energy d1 ≠ energy d2) →
  Forall (λ d, NoDup (energy d)) datasets ∧
  NoDup (energy arr) ∧
  (∀ e, e ∈ energy arr ↔ ∃ d, d ∈ datasets ∧ e ∈ energy d) ∧
  (∀ e, e ∈ energy arr ↔
        ∃ file_path, file_path ∈ file_list os directory_path file_pattern ∧
                     is_Some (file_slice os file_path) ∧
                     e ∈ energy_column (contents os file_path)) ∧
  (Total f64_le → Sorted f64_le (energy arr)).
Proof.
  intros Hds (datasets' & c & Hds' & Hc & ->)%load_ses_spectra_returns
    (d1 & d2 & H1 & H2 & Hdiff).
  rewrite Hds in Hds'. simplify_eq.
  assert (all_equal (energy <$> datasets') = false) as Hall.
  { apply not_true_is_false. intros Hall. apply Hdiff.
    by apply (proj1 (all_equal_fmap_true energy datasets') Hall). }
  assert (∀ e, e ∈ joined_index datasets' ↔ ∃ d, d ∈ datasets' ∧ e ∈ energy d)
    as Hlisted by apply elem_of_joined_index.
  assert (∀ e, e ∈ joined_index datasets' ↔
               ∃ file_path, file_path ∈ file_list os directory_path file_pattern ∧
                            is_Some (file_slice os file_path) ∧
                            e ∈ energy_column (contents os file_path)) as Hfiles.
  { intros e. rewrite Hlisted.
    apply load_files_outcome in Hds as [-> _]. cbn [app]. split.
    - intros (d & (p & Hp & Hslice)%list_elem_of_omap & He).
      exists p. split_and!; [done|by rewrite Hslice|].
      by rewrite <-(energy_file_slice os p d).
    - intros (p & Hp & [d Hslice] & He). exists d. split.
      + apply list_elem_of_omap. eauto.
      + by rewrite (energy_file_slice os p d). }
  assert (Forall (λ d, NoDup (energy d)) datasets') as Hnodup.
  { unfold concat_outer in Hc. rewrite Hall in Hc.
    destruct datasets' as [|d0 ds]; [done|].
    destruct (negb _); [done|].
    destruct (forallb _ _) eqn:Hnodup; [|done].
    apply Is_true_true, forallb_True in Hnodup.
    apply (Forall_impl _ _ _ Hnodup). intros d Hd. by apply bool_decide_unpack in Hd. }
  apply concat_outer_returns in Hc as (d0 & ds & _ & _ & ->).
  unfold with_ky. cbn [energy].
  split_and!; [done| |done|done|].
  - unfold joined_index. rewrite Hall, merge_sort_Permutation. apply NoDup_remove_dups.
  - intros Htotal. unfold joined_index. rewrite Hall. by apply Sorted_merge_sort.
Qed.

End energy_axis.

Section skipped_file.
Context `{Float64}.

(** ** A file with no angle, in the whole call *)

(** What [combine] makes of the arrays of well-formed files that agree in
    their pixel columns and whose energy columns can be aligned. *)
Lemma combine_well_formed os files :
  files ≠ [] →
  Forall (λ file_path, ∃ lines,
            readlines os file_path = Some lines ∧ well_formed lines) files →
  (∀ p q, p ∈ files → q ∈ files →
     pixel_columns (contents os p) = pixel_columns (contents os q)) →
  (∀ p q, p ∈ files → q ∈ files →
     energy_column (contents os p) = energy_column (contents os q)) ∨
  (∀ p, p ∈ files → NoDup (energy_column (contents os p))) →
  ∃ arr,
    combine (omap (file_slice os) files) = mret arr ∧
    dim0 arr = "kx" ∧
    coord0 arr = omap (λ file_path, angle_of (contents os file_path)) files ∧
    length (coord0 arr) = length files.
Proof.
  intros Hne Hwf Hpix Henergy.
  destruct (load_files_well_formed os files [] Hwf) as [_ Hlen].
  assert (∀ d, d ∈ omap (file_slice os) files →
            ∃ p, p ∈ files ∧ sliced d ∧
                 y_pixel d = pixel_columns (contents os p) ∧
                 energy d = energy_column (contents os p)) as Hd.
  { intros d (p & Hp & Hslice)%list_elem_of_omap.
    pose proof (proj1 (Forall_forall _ _) Hwf p Hp) as (lines & Hread & Hlines).
    destruct (load_file_well_formed os p lines Hread Hlines)
      as (d' & a & _ & Hslice' & Hsl & _ & _ & Hy & He).
    exists p. rewrite Hslice in Hslice'. by simplify_eq. }
  pose proof (concat_coord0 os files) as Hkx.
  destruct (omap (file_slice os) files) as [|d0 datasets] eqn:Hds.
  { exfalso. apply Hne. apply length_zero_iff_nil. by rewrite <-Hlen. }
  rewrite combine_concat, concat_outer_aligned, bind_mret.
  - eexists. split; [done|]. cbn [with_ky dim0 coord0].
    destruct (Hd d0) as (p0 & _ & Hsl0 & _); [apply list_elem_of_here|].
    rewrite (sliced_dim0 d0 Hsl0). split_and!; [done|exact Hkx|].
    rewrite concat_singletons; [exact Hlen|].
    apply Forall_forall. intros d (p & _ & Hsl & _)%Hd. by apply sliced_coord0.
  - intros d1 d2 (p1 & Hp1 & _ & -> & _)%Hd (p2 & Hp2 & _ & -> & _)%Hd.
    by apply Hpix.
  - destruct Henergy as [Heq|Hnodup]; [left|right].
    + intros d1 d2 (p1 & Hp1 & _ & _ & ->)%Hd (p2 & Hp2 & _ & _ & ->)%Hd.
      by apply Heq.
    + apply Forall_forall. intros d (p & Hp & _ & _ & ->)%Hd. by apply Hnodup.
Qed.

(** X14. A matched file with a marker line on which both lookups of the
    header scan, [lines[i - 3]] and [lines[i - 4]] as Python evaluates them,
    fail to give a float does not make [load_ses_spectra] raise and is left
    out of its result: the call runs the loop over the files before it,
    prints the warning of the file, runs the loop over the files after it
    and combines the arrays of those files only.  So when the other matched
    files are well-formed, agree in their pixel columns and have energy
    columns that are all equal or each free of duplicates, the call returns
    an array, having printed that one warning, and its kx axis lists the
    angles of the other files, one entry each; and when the file is the
    only match, the call raises the no-valid-data error after the
    warning. *)
Theorem file_with_unparsed_angle_is_left_out
    os directory_path file_pattern before file_path after lines i :
  file_list os directory_path file_pattern = before ++ file_path :: after →
  readlines os file_path = Some lines →
  first_marker lines = Some i →
  try_float lines (Z.of_nat i - 3) = None →
  try_float lines (Z.of_nat i - 4) = None →
  load_ses_spectra os directory_path file_pattern =
    (datasets' ← load_files os before [];
     _ ← print (warning os file_path);
     datasets ← load_files os after datasets';
     combine datasets) ∧
  (before ++ after ≠ [] →
   Forall (λ file_path', ∃ lines',
             readlines os file_path' = Some lines' ∧ well_formed lines')
          (before ++ after) →
   (∀ p q, p ∈ before ++ after → q ∈ before ++ after →
      pixel_columns (contents os p) = pixel_columns (contents os q)) →
   (∀ p q, p ∈ before ++ after → q ∈ before ++ after →
      energy_column (contents os p) = energy_column (contents os q)) ∨
   (∀ p, p ∈ before ++ after → NoDup (energy_column (contents os p))) →
   ∃ arr,
     load_ses_spectra os directory_path file_pattern =
       Run [warning os file_path] (inr arr) ∧
     dim0 arr = "kx" ∧
     coord0 arr =
       omap (λ file_path', angle_of (contents os file_path')) (before ++ after) ∧
     length (coord0 arr) = length (before ++ after)) ∧
  (before ++ after = [] →
   load_ses_spectra os directory_path file_pattern =
     Run [warning os file_path]
         (inl (ValueError "No valid datasets were created. Check file format."))).
Proof.
  intros Hlist Hread Hi H3 H4.
  assert (load_file os file_path = Run [warning os file_path] (inr None)) as Hp.
  { apply (load_file_no_angle _ _ lines i); [done..|].
    unfold angle_lookup. by rewrite H3. }
  assert (glob os (path_join os directory_path file_pattern) ≠ []) as Hglob.
  { intros Hnil. apply (f_equal length) in Hlist.
    rewrite length_file_list, Hnil, length_app in Hlist. simpl in Hlist. lia. }
  assert (load_ses_spectra os directory_path file_pattern =
            (datasets' ← load_files os before [];
             _ ← print (warning os file_path);
             datasets ← load_files os after datasets';
             combine datasets)) as Hrun.
  { rewrite load_ses_spectra_found by done.
    rewrite Hlist, load_files_app, bind_assoc.
    apply bind_ext. intros ds. cbn [load_files]. rewrite Hp, bind_assoc.
    unfold print. by rewrite !bind_inr. }
  split_and!; [exact Hrun| |].
  - intros Hne Hwf Hpix Henergy.
    destruct (combine_well_formed os (before ++ after) Hne Hwf Hpix Henergy)
      as (arr & Harr & Hdim & Hkx & Hlen).
    exists arr. split_and!; [|done..].
    apply Forall_app in Hwf as [Hbefore Hafter].
    rewrite Hrun.
    rewrite (proj1 (load_files_well_formed os before [] Hbefore)), bind_mret.
    cbn [app]. unfold print. rewrite bind_inr.
    rewrite (proj1 (load_files_well_formed os after _ Hafter)), bind_mret.
    rewrite <-omap_app, Harr. reflexivity.
  - intros [-> ->]%app_eq_nil. rewrite Hrun. reflexivity.
Qed.

End skipped_file.

(** ** Runs of the further properties *)

Section further_runs.
Local Existing Instance Sample.float64.
Import Sample.

Lemma angle_is_read_above_the_marker_witness :
  load_file dir_pair "run/S313_MgB2_1.txt" =
    (df ← read_csv dir_pair "run/S313_MgB2_1.txt" "009"%char 5;
     mret (Some (DataArray_of df (Some 12)))).
Proof.
  exact (angle_is_read_above_the_marker dir_pair "run/S313_MgB2_1.txt"
           spectrum_12 4 eq_refl eq_refl ltac:(lia)).
Defined.

Lemma kx_lists_the_angles_in_path_order_witness :
  ∃ arr,
    outcome (load_ses_spectra dir_pair "run" default_file_pattern) = inr arr ∧
    dim0 arr = "kx" ∧
    coord0 arr = [Some 12; Some 15].
Proof.
  eexists. split; [reflexivity|].
  lazymatch goal with
  | |- dim0 ?arr = _ ∧ _ =>
      pose proof (kx_lists_the_angles_in_path_order dir_pair "run"
                    default_file_pattern arr eq_refl) as (Hdim & Hkx & _)
  end.
  split; [exact Hdim|exact Hkx].
Defined.

Lemma printed_lines_are_the_warnings_witness :
  stdout (load_ses_spectra dir_mixed "run" default_file_pattern) =
    ["Warning: Could not parse angle in S313_MgB2_2.txt. Skipping."].
Proof.
  exact (proj2 (printed_lines_are_the_warnings dir_mixed "run"
                  default_file_pattern)
           [slice spectrum_12 4 (Some 12); slice spectrum_15 4 (Some 15)]
           eq_refl).
Defined.

Lemma glob_order_is_irrelevant_witness :
  load_ses_spectra
    (with_glob dir_pair (λ pattern, reverse (glob dir_pair pattern)))
    "run" default_file_pattern =
  load_ses_spectra dir_pair "run" default_file_pattern.
Proof.
  apply (glob_order_is_irrelevant dir_pair
           (λ pattern, reverse (glob dir_pair pattern)) "run" default_file_pattern).
  apply reverse_Permutation.
Defined.

Lemma failing_file_aborts_the_call_witness :
  file_list dir_empty_table "run" default_file_pattern =
    ["run/S313_MgB2_1.txt"] ++ "run/S313_MgB2_2.txt" :: ["run/S313_MgB2_3.txt"] ∧
  load_ses_spectra dir_empty_table "run" default_file_pattern =
    Run ["Warning: Could not parse angle in S313_MgB2_1.txt. Skipping."]
        (inl EmptyDataError).
Proof.
  split; [reflexivity|].
  exact (failing_file_aborts_the_call dir_empty_table "run" default_file_pattern
           ["run/S313_MgB2_1.txt"] "run/S313_MgB2_2.txt" ["run/S313_MgB2_3.txt"]
           [] EmptyDataError eq_refl eq_refl eq_refl).
Defined.

Lemma unreadable_table_raises_witness :
  load_file dir_empty_table "run/S313_MgB2_2.txt" = raise EmptyDataError ∧
  load_file dir_ragged_table "run/S313_MgB2_1.txt" = raise (ParserError 3).
Proof.
  split.
  - exact (proj1 (unreadable_table_raises (H:=float64) dir_empty_table "run/S313_MgB2_2.txt"
                    spectrum_empty 4 (Some 12) eq_refl eq_refl eq_refl) eq_refl).
  - apply (proj2 (unreadable_table_raises (H:=float64) dir_ragged_table "run/S313_MgB2_1.txt"
                    spectrum_ragged 4 (Some 12) eq_refl eq_refl eq_refl)
             [["1"; "10"]] ["2"; "20"; "30"] []).
    + reflexivity.
    + repeat constructor.
    + compute. lia.
Defined.

Local Ltac each_path H :=
  repeat (apply elem_of_cons in H as [->|H]); [..|by apply elem_of_nil in H].

Lemma equal_energy_columns_are_stacked_witness :
  ∃ arr,
    load_ses_spectra dir_scan "run" default_file_pattern = Run [] (inr arr) ∧
    dim0 arr = "kx" ∧
    coord0 arr = [Some 12; Some 21] ∧
    energy arr = [Some 1; Some 2] ∧
    values arr = [[[Some 10; Some 20]; [Some 30; Some 40]];
                  [[Some 14; Some 24]; [Some 34; Some 44]]].
Proof.
  destruct (equal_energy_columns_are_stacked dir_scan "run" default_file_pattern)
    as (arr & Hrun & Hdim & Hkx & Haxes & Hvalues).
  - discriminate.
  - change (file_list dir_scan "run" default_file_pattern)
      with ["run/S313_MgB2_1.txt"; "run/S313_MgB2_2.txt"].
    repeat apply Forall_cons_2; [| |apply Forall_nil_2].
    + exists spectrum_12. split; [reflexivity|apply spectrum_12_well_formed].
    + exists spectrum_21. split; [reflexivity|].
      exists 4%nat, (Some 21).
      split_and!; [reflexivity..|split; [discriminate|repeat constructor; compute; lia]].
  - change (file_list dir_scan "run" default_file_pattern)
      with ["run/S313_MgB2_1.txt"; "run/S313_MgB2_2.txt"].
    intros p q Hp Hq. each_path Hp; each_path Hq; reflexivity.
  - change (file_list dir_scan "run" default_file_pattern)
      with ["run/S313_MgB2_1.txt"; "run/S313_MgB2_2.txt"].
    intros p q Hp Hq. each_path Hp; each_path Hq; reflexivity.
  - exists arr. split_and!; [exact Hrun|exact Hdim|exact Hkx| |exact Hvalues].
    apply (Haxes "run/S313_MgB2_1.txt"). apply list_elem_of_here.
Defined.

Lemma result_is_a_full_box_witness :
  ∃ arr,
    outcome (load_ses_spectra dir_pair "run" default_file_pattern) = inr arr ∧
    length (coord0 arr) = 2%nat ∧ length (energy arr) = 3%nat ∧
    y_pixel arr = 2%nat ∧
    length (values arr) = length (coord0 arr).
Proof.
  eexists. split; [reflexivity|]. split_and!; [reflexivity..|].
  lazymatch goal with
  | |- length (values ?arr) = _ =>
      exact (proj1 (result_is_a_full_box dir_pair "run" default_file_pattern
                      arr eq_refl))
  end.
Defined.

Lemma ky_increases_from_minus_one_to_one_witness :
  ∃ arr ky_values,
    outcome (load_ses_spectra dir_pair "run" default_file_pattern) = inr arr ∧
    ky arr = Some ky_values ∧
    head ky_values = Some (- 1)%Qc ∧ last ky_values = Some 1%Qc.
Proof.
  evar (arr : @DataArray float64).
  assert (outcome (load_ses_spectra dir_pair "run" default_file_pattern) = inr arr)
    as Harr by (subst arr; reflexivity).
  destruct (ky_increases_from_minus_one_to_one dir_pair "run" default_file_pattern
              arr Harr) as (ky_values & Hky & _ & _ & Hends & _).
  exists arr, ky_values. split; [exact Harr|]. split; [exact Hky|].
  apply Hends. change (2 ≤ 2)%nat. lia.
Defined.

Lemma script_ends_normally_witness :
  main repr_sizes class_name dir_dataverse =
    Run ["Successfully created the combined ARPES dataset:";
         "<xarray.DataArray (kx, energy, y_pixel)>"] (inr tt).
Proof.
  destruct (script_ends_normally repr_sizes class_name dir_dataverse)
    as [Hout Hprinted].
  - change (glob dir_dataverse (path_join dir_dataverse data_folder
                                  default_file_pattern))
      with [data_folder +:+ "/S313_MgB2_1.txt"].
    apply Forall_cons_2; [by eexists|apply Forall_nil_2].
  - destruct (main repr_sizes class_name dir_dataverse) as [out [e|[]]];
      [discriminate Hout|].
    cbn [stdout] in Hprinted. rewrite Hprinted. reflexivity.
Defined.

Lemma script_reports_missing_files_witness :
  main repr_sizes class_name dir_pair =
    Run ["Error: No files found in the directory: C:/Users/mdram/SolidStatePhysics1/dataverse_files with pattern S313_MgB2_*.txt"]
        (inr tt).
Proof.
  exact (script_reports_missing_files repr_sizes class_name dir_pair eq_refl).
Defined.

Lemma differing_energy_columns_are_merged_witness :
  ∃ arr,
    outcome (load_ses_spectra dir_pair "run" default_file_pattern) = inr arr ∧
    energy arr = [Some 1; Some 2; Some 3] ∧
    NoDup (energy arr).
Proof.
  eexists. split; [reflexivity|]. split; [reflexivity|].
  lazymatch goal with
  | |- NoDup (energy ?arr) =>
      refine (proj1 (proj2 (differing_energy_columns_are_merged dir_pair "run"
                default_file_pattern
                [slice (H:=float64) spectrum_12 4 (Some 12);
                 slice (H:=float64) spectrum_15 4 (Some 15)]
                arr eq_refl eq_refl _)))
  end.
  exists (slice (H:=float64) spectrum_12 4 (Some 12)),
         (slice (H:=float64) spectrum_15 4 (Some 15)).
  split_and!.
  - apply list_elem_of_here.
  - apply list_elem_of_further, list_elem_of_here.
  - discriminate.
Defined.

Lemma header_scan_stops_at_the_first_occurrence_witness :
  readlines dir_twice_marked "run/S313_MgB2_1.txt" =
    Some ([line "[Info]"; line "12"; line "Region Name=MgB2"; line "Lens Mode=Angular"]
          ++ line "Spectrum [Data] 1" :: [row ["1"; "10"]; line "[Data]"; row ["2"; "30"]]) ∧
  scan_header dir_twice_marked "run/S313_MgB2_1.txt" twice_marked 0 twice_marked =
    Run [] (inr (Some 5%nat, Some (Some 12))) ∧
  load_file dir_twice_marked "run/S313_MgB2_1.txt" =
    (df ← read_csv dir_twice_marked "run/S313_MgB2_1.txt" "009"%char 5;
     mret (Some (DataArray_of df (Some 12)))).
Proof.
  split; [reflexivity|].
  pose proof (header_scan_stops_at_the_first_occurrence dir_twice_marked
                "run/S313_MgB2_1.txt"
                [line "[Info]"; line "12"; line "Region Name=MgB2";
                 line "Lens Mode=Angular"]
                (line "Spectrum [Data] 1")
                [row ["1"; "10"]; line "[Data]"; row ["2"; "30"]]
                eq_refl) as Hscan.
  destruct Hscan as (Hscan & Hload & _).
  - repeat apply Forall_cons_2; [..|apply Forall_nil_2];
      intros Hocc%contains_app; discriminate Hocc.
  - exists "Spectrum ", (" 1" +:+ nl). reflexivity.
  - split; [exact Hscan|exact Hload].
Defined.

Lemma file_with_unparsed_angle_is_left_out_witness :
  file_list dir_mixed "run" default_file_pattern =
    ["run/S313_MgB2_1.txt"] ++ "run/S313_MgB2_2.txt" :: ["run/S313_MgB2_3.txt"] ∧
  ∃ arr,
    load_ses_spectra dir_mixed "run" default_file_pattern =
      Run ["Warning: Could not parse angle in S313_MgB2_2.txt. Skipping."] (inr arr) ∧
    dim0 arr = "kx" ∧
    coord0 arr = [Some 12; Some 15].
Proof.
  split; [reflexivity|].
  destruct (file_with_unparsed_angle_is_left_out (H:=float64)
              dir_mixed "run" default_file_pattern
              ["run/S313_MgB2_1.txt"] "run/S313_MgB2_2.txt" ["run/S313_MgB2_3.txt"]
              spectrum_no_angle 4 eq_refl eq_refl eq_refl eq_refl eq_refl)
    as (_ & Hothers & _).
  destruct Hothers as (arr & Hrun & Hdim & Hkx & _).
  - discriminate.
  - repeat apply Forall_cons_2; [| |apply Forall_nil_2].
    + exists spectrum_12. split; [reflexivity|apply spectrum_12_well_formed].
    + exists spectrum_15. split; [reflexivity|apply spectrum_15_well_formed].
  - intros p q Hp Hq. each_path Hp; each_path Hq; reflexivity.
  - right. intros p Hp. each_path Hp; apply (bool_decide_unpack _); exact I.
  - exists arr. split_and!; [exact Hrun|exact Hdim|exact Hkx].
Defined.

(** C3 on the code: in [dir_short_pair] the marker of the second file,
    [short_header], is on its third line, so the file has no line three
    lines or four lines before the marker and no angle can be parsed at
    either offset; yet the call prints no warning and the file is not left
    out: the result has two kx entries, the second one the number 2 of the
    last row of that file, read by [lines[2 - 3]], and the rows of its
    table. *)
Lemma file_without_angle_lines_is_loaded_silently :
  file_list dir_short_pair "run" default_file_pattern =
    ["run/S313_MgB2_1.txt"; "run/S313_MgB2_2.txt"] ∧
  readlines dir_short_pair "run/S313_MgB2_2.txt" = Some short_header ∧
  first_marker short_header = Some 2%nat ∧
  line_above short_header 2 3 = None ∧
  line_above short_header 2 4 = None ∧
  warning_of dir_short_pair "run/S313_MgB2_2.txt" = None ∧
  ∃ arr,
    load_ses_spectra dir_short_pair "run" default_file_pattern = Run [] (inr arr) ∧
    coord0 arr = [Some 12; Some 2] ∧
    values arr = [[[Some 10]; [Some 30]]; [[Some 10]; [None]]].
Proof. split_and!; [reflexivity..|]. eexists. split_and!; reflexivity. Qed.

End further_runs.
